(** * weewxstats2social: the daily statistics engine of [main.go]

    A shallow embedding of [getStats] and of the reporting cycle
    [runWeatherPosting] (NaN guard, the two backward streak scans, emoji
    selection, title and body composition, publishing dispatch), together
    with the properties the specification states about them.

    Conventions of the embedding:
    - Go's [float64] is Rocq's primitive binary64 [float]; [*], [>], [>=],
      [<] are the IEEE operations, [math.IsNaN] is [is_nan].
    - Go's [int] and [int64] are [Z]; every integer the modelled code
      computes is a counter below 30 or a size below 25, so no wrap-around
      can occur and none is written out.
    - [database/sql] is an interface record [DB] of the four statements the
      program issues; [tableDB] implements it over two in-memory tables.
    - [time] is an interface record [Location]: the zone offset in effect at
      an instant and the instant of local midnight of a civil day.
    - Everything the program does to the outside world (statements sent to
      the store, lines on stderr, log lines, publishing calls) is recorded,
      in order, as a list of [event]s by a writer monad. *)

From Stdlib Require Import ZArith List String Bool Lia Floats.
From stdpp Require Import base gmap sets list.
Import ListNotations.

#[local] Set Warnings "-inexact-float,-clear-no-such-hyp".
#[local] Open Scope Z_scope.

(** ** Go's float64 comparisons *)

Module F64.
Definition float64 : Type := float.
(** [a > b] *)
Definition gt (a b : float64) : bool := PrimFloat.ltb b a.
(** [a >= b] *)
Definition ge (a b : float64) : bool := PrimFloat.leb b a.
(** [a < b] *)
Definition lt (a b : float64) : bool := PrimFloat.ltb a b.
(** [math.IsNaN(f)], that is [f != f] *)
Definition IsNaN (f : float64) : bool := PrimFloat.is_nan f.
(** [math.NaN()] *)
Definition NaN : float64 := PrimFloat.nan.
Arguments gt (a b)%_float_scope.
Arguments ge (a b)%_float_scope.
Arguments lt (a b)%_float_scope.
End F64.
Import F64.

(** ** database/sql *)

(** [sql.NullFloat64] *)
Record NullFloat64 : Type := mkNull { Float64 : float64; Valid : bool }.

Definition sqlNull : NullFloat64 := mkNull 0%float false.
Definition sqlReal (x : float64) : NullFloat64 := mkNull x true.
Arguments sqlReal x%_float_scope.

(** What [Scan], [Query] or [rows.Err] may hand back: [sql.ErrNoRows] when a
    [QueryRow] has an empty result set, or any other failure of the driver. *)
Inductive error : Type :=
| ErrNoRows
| ErrDriver (code : Z).

(** One scanned row of [qHourly]: [dateTime, rain, maxSolarRad]. *)
Record HourlyRow : Type := mkHourly {
  hr_ts : Z;
  hr_rain : NullFloat64;
  hr_maxSolarRad : NullFloat64
}.

(** The cursor [db.Query(qHourly, ...)] returns: what [rows.Scan] yields for
    each [rows.Next()], and what [rows.Err()] reports once [Next] is false. *)
Record Rows : Type := mkRows {
  scans : list (error + HourlyRow);
  rowsErr : option error
}.

(** The store, as the four statements of the program see it. *)
Record DB : Type := mkDB {
  (** [SELECT MAX(outTemp), MIN(outTemp) FROM archive
       WHERE dateTime >= ? AND dateTime < ?] through [QueryRow(..).Scan] *)
  qSummary : Z -> Z -> error + (NullFloat64 * NullFloat64);
  (** [SELECT sum FROM archive_day_rain WHERE dateTime = ?] *)
  qRain : Z -> error + NullFloat64;
  (** [SELECT sum FROM archive_day_rain WHERE dateTime >= ? AND dateTime < ?] *)
  qRainFallback : Z -> Z -> error + NullFloat64;
  (** [SELECT dateTime, rain, maxSolarRad FROM archive
       WHERE dateTime >= ? AND dateTime < ?] through [Query] *)
  qHourly : Z -> Z -> error + Rows
}.

(** *** A store backed by tables *)

Record ArchiveRow : Type := mkArchive {
  a_dateTime : Z;
  a_outTemp : NullFloat64;
  a_rain : NullFloat64;
  a_maxSolarRad : NullFloat64
}.

Record Tables : Type := mkTables {
  archive : list ArchiveRow;
  archive_day_rain : list (Z * NullFloat64)
}.

Definition inWindow (start end_ ts : Z) : bool := (start <=? ts) && (ts <? end_).

(** SQL [MAX]/[MIN] skip NULLs and are NULL over no value at all. *)
Definition sqlExtreme (better : float64 -> float64 -> bool)
    (acc x : NullFloat64) : NullFloat64 :=
  if Valid x
  then if Valid acc
       then if better (Float64 x) (Float64 acc) then x else acc
       else x
  else acc.

Definition sqlMax (xs : list NullFloat64) : NullFloat64 :=
  fold_left (sqlExtreme gt) xs sqlNull.
Definition sqlMin (xs : list NullFloat64) : NullFloat64 :=
  fold_left (sqlExtreme lt) xs sqlNull.

(** [QueryRow(..).Scan]: the first row of the result set, [ErrNoRows] if
    there is none. *)
Definition firstRow {A : Type} (rs : list A) : error + A :=
  match rs with
  | [] => inl ErrNoRows
  | r :: _ => inr r
  end.

Definition tableDB (t : Tables) : DB := {|
  qSummary start end_ :=
    let temps := map a_outTemp
      (List.filter (fun r => inWindow start end_ (a_dateTime r)) (archive t)) in
    inr (sqlMax temps, sqlMin temps);
  qRain ts :=
    firstRow (map snd (List.filter (fun r => fst r =? ts) (archive_day_rain t)));
  qRainFallback start end_ :=
    firstRow (map snd
      (List.filter (fun r => inWindow start end_ (fst r)) (archive_day_rain t)));
  qHourly start end_ :=
    inr {| scans := map (fun r => inr (mkHourly (a_dateTime r) (a_rain r)
                                            (a_maxSolarRad r)))
             (List.filter (fun r => inWindow start end_ (a_dateTime r)) (archive t));
           rowsErr := None |}
|}.

(** ** time *)

(** A [*time.Location]: [zoneOffset ts] is the number of seconds east of UTC
    in effect at the Unix instant [ts]; [midnight d] is the Unix instant of
    00:00:00 local time on civil day [d] (days counted from 1970-01-01), what
    [time.Date(y, m, d, 0, 0, 0, 0, loc).Unix()] computes.  [AddDate(0, 0, k)]
    on a local midnight moves the civil day by [k]. *)
Record Location : Type := mkLocation {
  zoneOffset : Z -> Z;
  midnight : Z -> Z
}.

Definition secondsPerHour : Z := 3600.
Definition secondsPerDay : Z := 86400.

(** The civil day of [time.Unix(ts, 0).In(loc)]. *)
Definition civilDay (loc : Location) (ts : Z) : Z :=
  (ts + zoneOffset loc ts) / secondsPerDay.

(** [time.Unix(ts, 0).In(loc).Hour()] *)
Definition Hour (loc : Location) (ts : Z) : Z :=
  ((ts + zoneOffset loc ts) mod secondsPerDay) / secondsPerHour.

Definition UTC : Location :=
  {| zoneOffset _ := 0; midnight d := d * secondsPerDay |}.

(** A zone with a fixed offset, such as CET (+3600). *)
Definition fixedZone (off : Z) : Location :=
  {| zoneOffset _ := off; midnight d := d * secondsPerDay - off |}.

(** ** Observable effects *)

(** The lines [getStats] writes to [os.Stderr]. *)
Inductive warning : Type :=
| WarnMaxNull (start end_ : Z)        (* MAX(outTemp) ist NULL für Zeitraum *)
| WarnMinNull (start end_ : Z)        (* MIN(outTemp) ist NULL für Zeitraum *)
| WarnRainNotFound (dayStartUnix : Z) (* Tagesregenmenge nicht gefunden *)
| WarnRainNull (dayStartUnix : Z).    (* Tagesregenmenge ist NULL *)

(** The lines [runWeatherPosting] hands to [log.Printf]. *)
Inductive logline : Type :=
| LogNaNSkipped        (* Ungültige Wetterdaten (NaN) – Posting wird übersprungen! *)
| LogLemmySkipped      (* Lemmy-Posting übersprungen (Passwort nicht konfiguriert) *)
| LogMastodonFailed
| LogMastodonPosted.

Inductive event : Type :=
| EvSummary (start end_ : Z)
| EvRain (ts : Z)
| EvRainFallback (start end_ : Z)
| EvHourly (start end_ : Z)
| EvStderr (w : warning)
| EvLog (l : logline)
| EvLemmyPostWithRetry (title body : string) (loopMode : bool)
| EvMastodonCreatePost (server token text visibility : string).

Definition isPublish (e : event) : bool :=
  match e with
  | EvLemmyPostWithRetry _ _ _ | EvMastodonCreatePost _ _ _ _ => true
  | _ => false
  end.

Definition isStoreQuery (e : event) : bool :=
  match e with
  | EvSummary _ _ | EvRain _ | EvRainFallback _ _ | EvHourly _ _ => true
  | _ => false
  end.

(** A computation yields a value and the events it caused, in order. *)
Definition M (A : Type) : Type := (A * list event)%type.

Definition ret {A : Type} (a : A) : M A := (a, []).

Definition bind {A B : Type} (m : M A) (k : A -> M B) : M B :=
  let '(a, w1) := m in
  let '(b, w2) := k a in
  (b, w1 ++ w2).

Definition emit (e : event) : M unit := (tt, [e]).

Declare Scope go_scope.
Delimit Scope go_scope with go.
Notation "'let*' x ':=' m 'in' k" := (bind m (fun x => k))
  (at level 10, x name, m at level 100, k at level 200) : go_scope.
Notation "'run' m 'in' k" := (bind m (fun _ => k))
  (at level 10, m at level 100, k at level 200) : go_scope.
#[local] Open Scope go_scope.

(** Sending a statement to the store is an event; its answer is the store's. *)
Definition querySummary (db : DB) (start end_ : Z) :=
  run emit (EvSummary start end_) in ret (qSummary db start end_).
Definition queryRain (db : DB) (ts : Z) :=
  run emit (EvRain ts) in ret (qRain db ts).
Definition queryRainFallback (db : DB) (start end_ : Z) :=
  run emit (EvRainFallback start end_) in ret (qRainFallback db start end_).
Definition queryHourly (db : DB) (start end_ : Z) :=
  run emit (EvHourly start end_) in ret (qHourly db start end_).

(** ** Thresholds *)

(** W/m²: radiation from which an hour counts as a sunshine hour. *)
Definition sunThreshold : float64 := 120%float.
(** Days without rain from which the post mentions the dry spell. *)
Definition drySpellThreshold : Z := 3.

(** ** getStats *)

Record dayStats : Type := mkStats {
  tMax : float64;
  tMin : float64;
  rainSum : float64;
  sunHours : Z
}.

Arguments mkStats (tMax tMin rainSum)%_float_scope sunHours%_Z_scope.

(** [var s dayStats] *)
Definition zeroStats : dayStats := mkStats 0%float 0%float 0%float 0.

Definition with_tMax (s : dayStats) (x : float64) : dayStats :=
  mkStats x (tMin s) (rainSum s) (sunHours s).
Definition with_tMin (s : dayStats) (x : float64) : dayStats :=
  mkStats (tMax s) x (rainSum s) (sunHours s).
Definition with_rainSum (s : dayStats) (x : float64) : dayStats :=
  mkStats (tMax s) (tMin s) x (sunHours s).
Definition with_sunHours (s : dayStats) (n : Z) : dayStats :=
  mkStats (tMax s) (tMin s) (rainSum s) n.

(** The [for rows.Next()] loop: [seenSun] is the [map[int]struct{}] used as a
    set of hours; a failing [rows.Scan] leaves the loop with its error. *)
Fixpoint scanRows (loc : Location) (rs : list (error + HourlyRow))
    (seenSun : gset Z) : error + gset Z :=
  match rs with
  | [] => inr seenSun
  | inl err :: _ => inl err
  | inr r :: rest =>
      let h := Hour loc (hr_ts r) in
      let maxSolarRad := hr_maxSolarRad r in
      if Valid maxSolarRad && ge (Float64 maxSolarRad) sunThreshold
      then scanRows loc rest ({[ h ]} ∪ seenSun)
      else scanRows loc rest seenSun
  end.

(** Block 1 of [getStats] once the summary row is scanned: the extremes, NaN
    and a warning for a NULL. *)
Definition getStats_temps (start end_ : Z) (tMax tMin : NullFloat64)
    (s : dayStats) : M dayStats :=
  let* s := (if Valid tMax then ret (with_tMax s (Float64 tMax))
             else run emit (EvStderr (WarnMaxNull start end_)) in
                  ret (with_tMax s NaN)) in
  if Valid tMin then ret (with_tMin s (Float64 tMin))
  else run emit (EvStderr (WarnMinNull start end_)) in
       ret (with_tMin s NaN).

(** Block 2 of [getStats]: the day's rain from [archive_day_rain]. *)
Definition getStats_rain (db : DB) (loc : Location) (start end_ : Z)
    (s : dayStats) : M dayStats :=
  let dayStartUnix := midnight loc (civilDay loc start) in
  let* exact := queryRain db dayStartUnix in
  match exact with
  | inl _ =>
      (* Fallback: Versuche alternative Abfrage mit Zeitraum *)
      let* span := queryRainFallback db start end_ in
      match span with
      | inl _ =>
          run emit (EvStderr (WarnRainNotFound dayStartUnix)) in
          ret (with_rainSum s 0%float)
      | inr rainSum =>
          if Valid rainSum
          then ret (with_rainSum s (Float64 rainSum * 10.0)%float)
          else run emit (EvStderr (WarnRainNull dayStartUnix)) in
               ret (with_rainSum s 0%float)
      end
  | inr rainSum =>
      if Valid rainSum
      then ret (with_rainSum s (Float64 rainSum * 10.0)%float)
      else run emit (EvStderr (WarnRainNull dayStartUnix)) in
           ret (with_rainSum s 0%float)
  end.

(** Block 3 of [getStats]: the sunshine hours, and the return. *)
Definition getStats_sun (db : DB) (loc : Location) (start end_ : Z)
    (s : dayStats) : M (dayStats * option error) :=
  let* hourly := queryHourly db start end_ in
  match hourly with
  | inl err => ret (s, Some err)
  | inr rows =>
      match scanRows loc (scans rows) ∅ with
      | inl err => ret (s, Some err)
      | inr seenSun =>
          match rowsErr rows with
          | Some err => ret (s, Some err)
          | None => ret (with_sunHours s (Z.of_nat (size seenSun)), None)
          end
      end
  end.

(** [func getStats(db, loc, start, end) (dayStats, error)]: the statistics
    and the error, [None] for [nil]. *)
Definition getStats (db : DB) (loc : Location) (start end_ : Z)
    : M (dayStats * option error) :=
  let s := zeroStats in
  (* 1) Tagesmax/min *)
  let* summary := querySummary db start end_ in
  match summary with
  | inl err => ret (s, Some err)
  | inr (tMax, tMin) =>
      let* s := getStats_temps start end_ tMax tMin s in
      (* 2) Tagesregenmenge aus archive_day_rain *)
      let* s := getStats_rain db loc start end_ s in
      (* 3) Sonnenstunden *)
      getStats_sun db loc start end_ s
  end.

(** ** runWeatherPosting *)

(** The fields of [Config] the reporting cycle reads or passes on. *)
Record Config : Type := mkConfig {
  LemmyServer : string;
  LemmyCommunity : string;
  LemmyUsername : string;
  LemmyPassword : string;
  MastodonServer : string;
  MastodonToken : string;
  MastodonVisibility : string
}.

(** What the cycle leaves to [fmt] and [time.Format], and to the network. *)
Record Env : Type := mkEnv {
  (** [%.1f] *)
  fmtF1 : float64 -> string;
  (** [%d] *)
  fmtD : Z -> string;
  (** [Format("02.01.2006")] of the local midnight of a civil day *)
  fmtDate : Z -> string;
  (** whether [mastodonCreatePost(server, token, text, visibility)] returns
      an error *)
  mastodonFails : string -> string -> string -> string -> bool;
  (** whether [lemmyPostWithRetry(config, title, weatherText, loopMode)]
      returns: its loop is left on a successful pass or, in loop mode only,
      on the 48th failed one, so outside loop mode it does not return while
      Lemmy keeps failing *)
  lemmyReturns : Config -> string -> string -> bool -> bool
}.

#[local] Open Scope string_scope.
#[local] Open Scope Z_scope.

(** The pieces a [fmt.Sprintf] or a chain of [+] puts one after the other. *)
Definition cat (pieces : list string) : string := String.concat "" pieces.

Definition nl : string := String (Ascii.ascii_of_nat 10) EmptyString.

(** The backward scan for the dry spell, [for i := 1; i < 30; i++], entered
    with the current [i] and counter.  [fuel] bounds the number of passes the
    model may take; [None] means it was used up before the loop ended. *)
Fixpoint dryScan (fuel : nat) (db : DB) (loc : Location) (today i : Z)
    (daysSinceRain : Z) : M (option Z) :=
  match fuel with
  | O => ret None
  | S fuel' =>
      if i <? 30 then
        let start := midnight loc (today - i) in
        let* r := queryRain db start in
        match r with
        | inl _ => ret (Some daysSinceRain) (* Fehler oder kein Eintrag *)
        | inr rainSum =>
            if Valid rainSum && gt (Float64 rainSum * 10.0)%float 0%float
            then ret (Some daysSinceRain) (* Es hat geregnet *)
            else dryScan fuel' db loc today (i + 1) (daysSinceRain + 1)
        end
      else ret (Some daysSinceRain)
  end.

(** The backward scan for the rain series, the second
    [for i := 1; i < 30; i++]. *)
Fixpoint wetScan (fuel : nat) (db : DB) (loc : Location) (today i : Z)
    (consecutiveRainDays : Z) : M (option Z) :=
  match fuel with
  | O => ret None
  | S fuel' =>
      if i <? 30 then
        let start := midnight loc (today - i) in
        let* r := queryRain db start in
        match r with
        | inl _ => ret (Some consecutiveRainDays) (* Fehler oder kein Eintrag *)
        | inr rainSum =>
            if Valid rainSum && gt (Float64 rainSum * 10.0)%float 0%float
            then wetScan fuel' db loc today (i + 1) (consecutiveRainDays + 1)
            else ret (Some consecutiveRainDays) (* Kein Regen -> Serie endet *)
        end
      else ret (Some consecutiveRainDays)
  end.

(** Passes granted to each scan; [dryScan_total] and [wetScan_total] show
    that they suffice. *)
Definition scanFuel : nat := 30.

Definition daysSinceRain (db : DB) (loc : Location) (today : Z) : M (option Z) :=
  dryScan scanFuel db loc today 1 0.

Definition consecutiveRainDays (db : DB) (loc : Location) (today : Z)
    : M (option Z) :=
  wetScan scanFuel db loc today 1 0.

(** Go's [append(slice, elem)]. *)
Definition append {A : Type} (xs : list A) (x : A) : list A := (xs ++ [x])%list.

(** [emojis]: the slice built by the chain of [append]s. *)
Definition emojis (statsY : dayStats) : list string :=
  let emojis : list string := [] in
  let emojis :=
    if gt (rainSum statsY) 0 then append emojis "🌧️ " else emojis in
  let emojis :=
    if ge (tMax statsY) 35 then append emojis "🏜️ "
    else if ge (tMax statsY) 30 then append emojis "🌡️ "
    else if ge (tMax statsY) 25 then append emojis "☀️ "
    else emojis in
  let emojis :=
    if lt (tMin statsY) 0 then append emojis "❄️ " else emojis in
  let emojis :=
    if lt (tMax statsY) 0 then append emojis "🧊 " else emojis in
  let emojis :=
    if ge (tMin statsY) 20 then append emojis "🌙 " else emojis in
  emojis.

(** [strings.Join(emojis, " ") + " "] when a rule fired, [""] otherwise. *)
Definition emojiString (statsY : dayStats) : string :=
  if 0 <? Z.of_nat (length (emojis statsY))
  then cat [String.concat " " (emojis statsY); " "]
  else "".

Definition title (env : Env) (yesterdayDay : Z) (statsY statsV : dayStats)
    : string :=
  cat [emojiString statsY; "Wetterstatistik für Overath ";
       fmtDate env yesterdayDay; ": Temperatur "; fmtF1 env (tMax statsY);
       " bis "; fmtF1 env (tMin statsY); " °C (Vortag: ";
       fmtF1 env (tMax statsV); " bis "; fmtF1 env (tMin statsV); "°C)"].

(** [weatherText]: the body, with the dry-spell and rain-series notes. *)
Definition weatherText (env : Env) (statsY statsV : dayStats)
    (daysSinceRain consecutiveRainDays : Z) : string :=
  let weatherText :=
    cat ["Niederschlag: "; fmtF1 env (rainSum statsY); " mm (Vortag: ";
         fmtF1 env (rainSum statsV); " mm), Sonnenstunden: ";
         fmtD env (sunHours statsY); " h (Vortag: ";
         fmtD env (sunHours statsV);
         " h) Details: https://groloe.wetter.foxel.org/week.html"] in
  let weatherText :=
    if drySpellThreshold <=? daysSinceRain then
      if gt (rainSum statsY) 0
      then cat [weatherText; nl; "Es hat nach "; fmtD env daysSinceRain;
                " Tagen wieder geregnet."]
      else cat [weatherText; nl; "Es hat seit "; fmtD env daysSinceRain;
                " Tagen nicht mehr geregnet."]
    else weatherText in
  let weatherText :=
    if drySpellThreshold <=? consecutiveRainDays
    then cat [weatherText; nl; "Es regnet seit "; fmtD env consecutiveRainDays;
              " Tagen jeden Tag."]
    else weatherText in
  weatherText.

Definition mastodonConfigured (config : Config) : bool :=
  negb (MastodonServer config =? "")%string
  && negb (MastodonToken config =? "")%string.

(** The tail of [runWeatherPosting]: who is handed [title] and
    [weatherText].  [lemmyPostWithRetry] and [mastodonCreatePost] are network
    clients; a call is recorded with its arguments.  The call of
    [lemmyPostWithRetry] is synchronous: what stands after it is reached only
    if it returns, and when it does not the call is the last event. *)
Definition publish (env : Env) (config : Config) (testMode loopMode : bool)
    (title weatherText : string) : M unit :=
  let mastodonText := cat [title; nl; weatherText] in
  let mastodon : M unit :=
    if mastodonConfigured config then
      run emit (EvMastodonCreatePost (MastodonServer config)
                  (MastodonToken config) mastodonText
                  (MastodonVisibility config)) in
      if mastodonFails env (MastodonServer config) (MastodonToken config)
           mastodonText (MastodonVisibility config)
      then emit (EvLog LogMastodonFailed)
      else emit (EvLog LogMastodonPosted)
    else ret tt in
  if negb testMode && negb (LemmyPassword config =? "CHANGEME")%string then
    run emit (EvLemmyPostWithRetry title weatherText loopMode) in
    if lemmyReturns env config title weatherText loopMode
    then mastodon
    else ret tt
  else if testMode then
    if mastodonConfigured config
    then emit (EvMastodonCreatePost (MastodonServer config)
                 (MastodonToken config) mastodonText
                 (MastodonVisibility config))
    else ret tt
  else
    run emit (EvLog LogLemmySkipped) in
    mastodon.

(** How far one call of [runWeatherPosting] gets.  [Reported] says that
    title and body were composed and handed to the publishing tail; the call
    then returns, unless it stays in a [lemmyPostWithRetry] that does not
    return, in which case that call is the last event of the trace. *)
Inductive outcome : Type :=
| FatalYesterday (err : error)   (* log.Fatalf("yesterday stats: %v", err) *)
| FatalVorgestern (err : error)  (* log.Fatalf("vorgestern stats: %v", err) *)
| Skipped                        (* the return of the NaN check *)
| Reported (title weatherText : string)
| OutOfFuel.                     (* a scan used up [scanFuel]; never happens *)

(** [now] is [time.Now()] as a Unix instant; [loc] is the loaded
    Europe/Berlin location and [db] the opened store.  The echo of the
    statistics on stdout and the NOAA comparison of the test mode only print
    and are left out. *)
Definition runWeatherPosting (env : Env) (db : DB) (loc : Location)
    (config : Config) (testMode loopMode : bool) (now : Z) : M outcome :=
  let today := civilDay loc now in
  let startYesterday := midnight loc (today - 1) in
  let endYesterday := midnight loc (today - 1 + 1) in
  let startDayBefore := midnight loc (today - 2) in
  let endDayBefore := midnight loc (today - 2 + 1) in
  let* y := getStats db loc startYesterday endYesterday in
  match y with
  | (_, Some err) => ret (FatalYesterday err)
  | (statsY, None) =>
  let* v := getStats db loc startDayBefore endDayBefore in
  match v with
  | (_, Some err) => ret (FatalVorgestern err)
  | (statsV, None) =>
  (* Vor dem Posting: Prüfe auf NaN *)
  if IsNaN (tMax statsY) || IsNaN (tMin statsY)
     || IsNaN (tMax statsV) || IsNaN (tMin statsV)
  then
    run emit (EvLog LogNaNSkipped) in
    ret Skipped
  else
    (* Ermittle Trockenperiode (Tage seit letztem Regen) *)
    let* d := daysSinceRain db loc today in
    match d with
    | None => ret OutOfFuel
    | Some daysSinceRain =>
    let* c := consecutiveRainDays db loc today in
    match c with
    | None => ret OutOfFuel
    | Some consecutiveRainDays =>
    let weatherText :=
      weatherText env statsY statsV daysSinceRain consecutiveRainDays in
    let title := title env (today - 1) statsY statsV in
    run publish env config testMode loopMode title weatherText in
    ret (Reported title weatherText)
    end
    end
  end
  end.

(** ** Vocabulary of the specification *)

(** The test both scans apply to a scanned rollup value:
    [rainSum.Valid && rainSum.Float64 * 10.0 > 0]. *)
Definition rained (v : NullFloat64) : bool :=
  Valid v && gt (Float64 v * 10.0)%float 0.

(** What the rollup statement answers for the day [i] days before the
    reference day. *)
Definition lookback (db : DB) (loc : Location) (today i : Z)
    : error + NullFloat64 :=
  qRain db (midnight loc (today - i)).

(** A wet day: a row whose scaled value is above zero. *)
Definition wetDay (r : error + NullFloat64) : bool :=
  match r with inr v => rained v | inl _ => false end.

(** A dry day: a row, with a NULL sum or a scaled value not above zero. *)
Definition dryDay (r : error + NullFloat64) : bool :=
  match r with inr v => negb (rained v) | inl _ => false end.

(** The statement failed or found no row. *)
Definition unreadable (r : error + NullFloat64) : bool :=
  match r with inl _ => true | inr _ => false end.

(** A row that exists and carries a NULL sum. *)
Definition nullRow (r : error + NullFloat64) : bool :=
  match r with inr v => negb (Valid v) | inl _ => false end.

(** A reading meets the sunshine threshold. *)
Definition qualifies (r : HourlyRow) : bool :=
  Valid (hr_maxSolarRad r) && ge (Float64 (hr_maxSolarRad r)) sunThreshold.

(** Following the specification's words: the number of hour-of-day buckets
    0..23 that hold at least one reading meeting the threshold. *)
Definition sunBucketCount (loc : Location) (rows : list HourlyRow) : Z :=
  Z.of_nat (length (List.filter
    (fun h => existsb (fun r => qualifies r && (Hour loc (hr_ts r) =? h)) rows)
    (seqZ 0 24))).

(** Following the specification's words: the emoji rules in their fixed
    order, each emoji - the emoji alone, without any blank - with the
    condition under which it fires. *)
Definition emojiRules (statsY : dayStats) : list (string * bool) :=
  [ ("🌧️", gt (rainSum statsY) 0);
    ("🏜️", ge (tMax statsY) 35);
    ("🌡️", negb (ge (tMax statsY) 35) && ge (tMax statsY) 30);
    ("☀️", negb (ge (tMax statsY) 35) && negb (ge (tMax statsY) 30)
             && ge (tMax statsY) 25);
    ("❄️", lt (tMin statsY) 0);
    ("🧊", lt (tMax statsY) 0);
    ("🌙", ge (tMin statsY) 20) ].

Definition firedEmojis (statsY : dayStats) : list string :=
  map fst (List.filter snd (emojiRules statsY)).

(** Following the specification's words: the fired emojis joined with
    single spaces. *)
Definition singleSpaced (statsY : dayStats) : string :=
  String.concat " " (firedEmojis statsY).

(** The title without its emoji prefix. *)
Definition titleText (env : Env) (yesterdayDay : Z) (statsY statsV : dayStats)
    : string :=
  cat ["Wetterstatistik für Overath "; fmtDate env yesterdayDay;
       ": Temperatur "; fmtF1 env (tMax statsY); " bis ";
       fmtF1 env (tMin statsY); " °C (Vortag: "; fmtF1 env (tMax statsV);
       " bis "; fmtF1 env (tMin statsV); "°C)"].

(** A binary64 value, seen through its specification, that is a zero, a
    positive finite number or plus infinity. *)
Definition nonnegSF (f : spec_float) : bool :=
  match f with
  | S754_zero _ => true
  | S754_infinity s | S754_finite s _ _ => negb s
  | S754_nan => false
  end.

(** The events of a computation and its value. *)
Definition events {A : Type} (m : M A) : list event := snd m.
Definition value {A : Type} (m : M A) : A := fst m.

(** The two statements against [archive_day_rain]. *)
Definition isRainStatement (e : event) : bool :=
  match e with
  | EvRain _ | EvRainFallback _ _ => true
  | _ => false
  end.

(** The error the sunshine block of [getStats] ends with, if any: of the
    hourly statement, of a [Scan], or of [rows.Err]. *)
Definition hourlyError (db : DB) (loc : Location) (start end_ : Z)
    : option error :=
  match qHourly db start end_ with
  | inl err => Some err
  | inr rows =>
      match scanRows loc (scans rows) ∅ with
      | inl err => Some err
      | inr _ => rowsErr rows
      end
  end.

(** The statements a scan sends when it visits the days [i], [i+1], ...,
    [n] of them. *)
Definition scanQueries (loc : Location) (today i n : Z) : list event :=
  map (fun j => EvRain (midnight loc (today - j))) (seqZ i n).

(** What a scan entered at day [i] with counter [n] returns when it has
    enough fuel: it counts [k] days, all of them of the kind it looks for,
    stops at day [i + k] because that day is of another kind or because
    [i + k] reached 30, and has sent one statement per visited day. *)
Definition scanResult (db : DB) (loc : Location) (today : Z)
    (kind : error + NullFloat64 -> bool) (i n : Z)
    (r : M (option Z)) (k : Z) : Prop :=
  value r = Some (n + k)
  /\ 0 <= k
  /\ (forall j, i <= j < i + k -> kind (lookback db loc today j) = true)
  /\ (i + k < 30 -> kind (lookback db loc today (i + k)) = false)
  /\ (i <= 30 -> i + k <= 30)
  /\ events r = scanQueries loc today i (Z.min (k + 1) (30 - i)).

(** The hours a run of readings puts into [seenSun]. *)
Definition sunnyHours (loc : Location) (hs : list HourlyRow) : gset Z :=
  list_to_set (map (fun r => Hour loc (hr_ts r)) (List.filter qualifies hs)).

(** ** Sample stores *)

(** The reference day of the samples, as a civil day number, and an instant
    at 04:00 UTC on it. *)
Definition refDay : Z := 20264.
Definition refNow : Z := refDay * secondsPerDay + 4 * secondsPerHour.

(** Rollup rows at the UTC midnights of the days 1, 2, ... before [today],
    carrying [sums] in that order. *)
Definition history (today : Z) (sums : list NullFloat64)
    : list (Z * NullFloat64) :=
  imap (fun k v => (midnight UTC (today - 1 - Z.of_nat k), v)) sums.

(** One reading per listed hour offset (in seconds after the UTC midnight of
    [day]), all with the same temperature. *)
Definition readings (day : Z) (temp : float64)
    (samples : list (Z * NullFloat64)) : list ArchiveRow :=
  map (fun s => mkArchive (midnight UTC day + fst s) (sqlReal temp) sqlNull
                  (snd s)) samples.
Arguments readings day%_Z_scope temp%_float_scope samples.

(** Two days of readings with valid temperatures. *)
Definition twoDays : list ArchiveRow :=
  (readings (refDay - 1) 21.5 [(12 * 3600, sqlReal 300)]
   ++ readings (refDay - 2) 18 [(13 * 3600, sqlReal 90)])%list.

Definition drought40 : Tables :=
  mkTables twoDays (history refDay (replicate 40 (sqlReal 0))).

Definition rain40 : Tables :=
  mkTables twoDays (history refDay (replicate 40 (sqlReal 0.4))).

(** The window of the day before the reference day, in UTC. *)
Definition yStart : Z := midnight UTC (refDay - 1).
Definition yEnd : Z := midnight UTC refDay.

(** A rollup row of 1.23 typed at midnight. *)
Definition rollupAtMidnight : Tables :=
  mkTables twoDays [(yStart, sqlReal 1.23)].

(** A rollup row typed an hour into the day. *)
Definition rollupInWindow : Tables :=
  mkTables twoDays [(yStart + 3600, sqlReal 0.5)].

(** No rollup row at all. *)
Definition rollupMissing : Tables := mkTables twoDays [].

(** A NULL sum at midnight, and a second row later in the window. *)
Definition rollupNull : Tables :=
  mkTables twoDays [(yStart, sqlNull); (yStart + 60, sqlReal 0.7)].

(** A negative sum at midnight. *)
Definition rollupNegative : Tables :=
  mkTables twoDays [(yStart, sqlReal (-0.5))].

(** Readings for the day before the reference day only: the window of the
    day before that holds no temperature sample. *)
Definition oneDayOnly : Tables :=
  mkTables (readings (refDay - 1) 21.5 [(12 * 3600, sqlReal 300)])
           (history refDay (replicate 5 (sqlReal 0))).

(** Readings of the day before the reference day: 12:00 and 12:30 above the
    threshold, 13:10 at the threshold, 14:00 below it, 15:00 without a value. *)
Definition sunnyDay : Tables :=
  mkTables
    (readings (refDay - 1) 21.5
       [(12 * 3600, sqlReal 300); (12 * 3600 + 1800, sqlReal 450);
        (13 * 3600 + 600, sqlReal 120); (14 * 3600, sqlReal 119.9);
        (15 * 3600, sqlNull)])
    [].

(** The rows [qHourly] yields on [sunnyDay] for that day. *)
Definition sunnyRows : list HourlyRow :=
  [mkHourly (yStart + 12 * 3600) sqlNull (sqlReal 300);
   mkHourly (yStart + (12 * 3600 + 1800)) sqlNull (sqlReal 450);
   mkHourly (yStart + (13 * 3600 + 600)) sqlNull (sqlReal 120);
   mkHourly (yStart + 14 * 3600) sqlNull (sqlReal 119.9);
   mkHourly (yStart + 15 * 3600) sqlNull sqlNull].

(** Backward from the reference day: dry, NULL, dry, wet, dry. *)
Definition nullInDryRun : Tables :=
  mkTables twoDays
    (history refDay [sqlReal 0; sqlNull; sqlReal 0; sqlReal 0.2; sqlReal 0]).

(** Backward from the reference day: wet, wet, NULL, wet. *)
Definition nullInWetRun : Tables :=
  mkTables twoDays
    (history refDay [sqlReal 0.1; sqlReal 0.3; sqlNull; sqlReal 0.2]).

(** Backward from the reference day: dry, dry, wet, wet. *)
Definition dryDryWetWet : Tables :=
  mkTables twoDays
    (history refDay [sqlReal 0; sqlReal 0; sqlReal 0.2; sqlReal 0.1]).

(** Backward from the reference day: wet, wet, dry, wet. *)
Definition wetWetDry : Tables :=
  mkTables twoDays
    (history refDay [sqlReal 0.2; sqlReal 0.1; sqlReal 0; sqlReal 0.5]).

Definition sampleEnv : Env :=
  {| fmtF1 _ := "?"; fmtD _ := "#"; fmtDate _ := "dd.mm.yyyy";
     mastodonFails _ _ _ _ := false;
     lemmyReturns _ _ _ _ := true |}.

(** A network on which Lemmy stays down, and a configuration with Lemmy
    and Mastodon both set up. *)
Definition lemmyDownEnv : Env :=
  {| fmtF1 _ := "?"; fmtD _ := "#"; fmtDate _ := "dd.mm.yyyy";
     mastodonFails _ _ _ _ := false;
     lemmyReturns _ _ _ loopMode := loopMode |}.

Definition bothConfig : Config :=
  mkConfig "https://natur.23.nu" "wetter" "wetterbot" "secret"
           "https://social.example" "token" "unlisted".

Definition sampleConfig : Config :=
  mkConfig "https://natur.23.nu" "wetter" "wetterbot" "secret" "" "" "unlisted".

(** ** DefaultConfig *)

(** [DefaultConfig()], for the fields [Config] carries here ([LemmyToken] is
    empty and [LemmyTokenExp] the zero time). *)
Definition DefaultConfig : Config :=
  mkConfig "https://natur.23.nu" "wetter" "wetterbot" "CHANGEME" "" ""
           "unlisted".

(** ** lemmyPostWithRetry *)

(** How one pass through the loop body goes: which of [lemmyLogin],
    [lemmyGetCommunityID] and [lemmyCreatePost] is the first to return an
    error, if any.  The network decides; [net n] is the pass [n] from now. *)
Inductive attempt : Type :=
| LoginFails
| CommunityFails
| CreatePostFails
| AllSucceed.

(** The lines [lemmyPostWithRetry] hands to [log.Printf]. *)
Inductive retryLog : Type :=
| LogTrying              (* Versuche Post an Lemmy zu senden... *)
| LogLoginError          (* Fehler beim Lemmy-Login *)
| LogCommunityError      (* Fehler beim Holen der Community-ID *)
| LogCreateError         (* Fehler beim Erstellen des Posts *)
| LogMaxRetries          (* Maximale Anzahl von Wiederholungen erreicht (48) *)
| LogRetryCounted (retryCount : Z) (* Wiederhole in 30m... (Versuch n/48) *)
| LogRetry               (* Wiederhole in 30m... *)
| LogPosted.             (* Wetterstatistik erfolgreich an Lemmy gepostet! *)

Inductive retryEvent : Type :=
| RLog (l : retryLog)
| RLogin (server username password : string)
| RGetCommunityID (server community : string)
| RCreatePost (server title body : string)
| RSleep.                (* time.Sleep(retryInterval), 30 minutes *)

Definition maxRetries : Z := 48.

(** The block that follows each of the three failures: the events, and
    [Some retryCount] for [continue], [None] for [return]. *)
Definition afterFailure (loopMode : bool) (retryCount : Z)
    : list retryEvent * option Z :=
  if loopMode then
    let retryCount := retryCount + 1 in
    if maxRetries <=? retryCount
    then ([RLog LogMaxRetries], None)
    else ([RLog (LogRetryCounted retryCount); RSleep], Some retryCount)
  else ([RLog LogRetry; RSleep], Some retryCount).

(** The calls and log lines of one pass, up to the failure block. *)
Definition passEvents (config : Config) (title weatherText : string)
    (a : attempt) : list retryEvent :=
  let login := RLogin (LemmyServer config) (LemmyUsername config)
                 (LemmyPassword config) in
  let community := RGetCommunityID (LemmyServer config)
                     (LemmyCommunity config) in
  let create := RCreatePost (LemmyServer config) title weatherText in
  match a with
  | LoginFails => [RLog LogTrying; login; RLog LogLoginError]
  | CommunityFails =>
      [RLog LogTrying; login; community; RLog LogCommunityError]
  | CreatePostFails =>
      [RLog LogTrying; login; community; create; RLog LogCreateError]
  | AllSucceed => [RLog LogTrying; login; community; create; RLog LogPosted]
  end.

(** [func lemmyPostWithRetry(config, title, weatherText, loopMode)], entered
    with the current [retryCount].  The [for] has no condition: [fuel] bounds
    the passes the model takes, and the result says whether the function
    returned within them. *)
Fixpoint lemmyPostWithRetryFrom (fuel : nat) (net : nat -> attempt)
    (config : Config) (title weatherText : string) (loopMode : bool)
    (retryCount : Z) : list retryEvent * bool :=
  match fuel with
  | O => ([], false)
  | S fuel' =>
      let a := net O in
      let calls := passEvents config title weatherText a in
      match a with
      | AllSucceed => (calls, true) (* Erfolgreich - beende die Schleife *)
      | _ =>
          let '(evs, next) := afterFailure loopMode retryCount in
          match next with
          | None => ((calls ++ evs)%list, true)
          | Some retryCount =>
              let '(later, returned) :=
                lemmyPostWithRetryFrom fuel' (fun n => net (S n)) config
                  title weatherText loopMode retryCount in
              ((calls ++ evs ++ later)%list, returned)
          end
      end
  end.

Definition lemmyPostWithRetry (fuel : nat) (net : nat -> attempt)
    (config : Config) (title weatherText : string) (loopMode : bool)
    : list retryEvent * bool :=
  lemmyPostWithRetryFrom fuel net config title weatherText loopMode 0.

Definition isSleep (e : retryEvent) : bool :=
  match e with RSleep => true | _ => false end.
Definition isTrying (e : retryEvent) : bool :=
  match e with RLog LogTrying => true | _ => false end.
Definition isCreatePost (e : retryEvent) : bool :=
  match e with RCreatePost _ _ _ => true | _ => false end.
Definition isPosted (e : retryEvent) : bool :=
  match e with RLog LogPosted => true | _ => false end.
Definition isGiveUp (e : retryEvent) : bool :=
  match e with RLog LogMaxRetries => true | _ => false end.

Definition failing (a : attempt) : bool :=
  match a with AllSucceed => false | _ => true end.

(** ** parseNoaaRain *)

(** What [os.Open] and the [f.Read] loop make of the report file: the open
    fails, a read fails before end of file, or the whole content is read. *)
Inductive noaaFile : Type :=
| OpenFails (code : Z)
| ReadFails (code : Z)
| Content (content : string).

Inductive noaaError : Type :=
| NoaaOpen (code : Z)
| NoaaRead (code : Z)
| NoaaNoEntry (dateStr : string). (* Kein Eintrag für %s in NOAA-Report *)

(** What the function leaves to [strings.Fields] and to
    [fmt.Sscanf(.., "%f", &rainVal)] ([None] when nothing is scanned). *)
Record Scanner : Type := mkScanner {
  Fields : string -> list string;
  sscanfFloat : string -> option float64
}.

(** [strings.Split(content, "\n")] *)
Fixpoint splitLines (content : string) : list string :=
  match content with
  | EmptyString => [EmptyString]
  | String c rest =>
      if Ascii.eqb c (Ascii.ascii_of_nat 10) then EmptyString :: splitLines rest
      else match splitLines rest with
           | [] => [String c EmptyString]
           | l :: ls => String c l :: ls
           end
  end.

(** [strings.HasPrefix(line, dateStr+" ")] with four fields or more. *)
Definition noaaLineMatches (sc : Scanner) (dateStr line : string) : bool :=
  String.prefix (dateStr ++ " ")%string line
  && (4 <=? Z.of_nat (length (Fields sc line))).

(** The [for _, line := range lines] loop: [Some rainVal] when it left by
    [break] with [found] set, [None] when it ran to the end. *)
Fixpoint noaaScanLines (sc : Scanner) (dateStr : string) (lines : list string)
    : option float64 :=
  match lines with
  | [] => None
  | line :: rest =>
      if String.prefix (dateStr ++ " ")%string line then
        let fields := Fields sc line in
        if 4 <=? Z.of_nat (length fields) then
          (* Feld 4 ist Regenmenge laut NOAA-Template *)
          match sscanfFloat sc (nth 3 fields EmptyString) with
          | Some rainVal => Some rainVal
          | None => Some 0%float
          end
        else noaaScanLines sc dateStr rest
      else noaaScanLines sc dateStr rest
  end.

(** [func parseNoaaRain(noaaFile, date) (float64, error)]; [dateStr] is
    [date.Format("02.01")]. *)
Definition parseNoaaRain (sc : Scanner) (file : noaaFile) (dateStr : string)
    : float64 * option noaaError :=
  match file with
  | OpenFails code => (0%float, Some (NoaaOpen code))
  | ReadFails code => (0%float, Some (NoaaRead code))
  | Content content =>
      let lines := splitLines content in
      match noaaScanLines sc dateStr lines with
      | Some rainVal => (rainVal, None)
      | None => (0%float, Some (NoaaNoEntry dateStr))
      end
  end.

(** The value [parseNoaaRain] reads off a matching line: its fourth field
    as scanned, 0 when the scan fails. *)
Definition noaaValue (sc : Scanner) (line : string) : float64 :=
  match sscanfFloat sc (nth 3 (Fields sc line) EmptyString) with
  | Some rainVal => rainVal
  | None => 0%float
  end.

(** ** More vocabulary *)

(** [midnight] and [civilDay] agree on day [d]: the local midnight of [d]
    lies on [d]. *)
Definition midnightOnItsDay (loc : Location) (d : Z) : Prop :=
  civilDay loc (midnight loc d) = d.

(** A run of days of one kind, from day 1, that stops at day [d + 1] or at
    the horizon. *)
Definition leadingRun (db : DB) (loc : Location) (today : Z)
    (kind : error + NullFloat64 -> bool) (d : Z) : Prop :=
  0 <= d <= 29
  /\ (forall j, 1 <= j <= d -> kind (lookback db loc today j) = true)
  /\ (d < 29 -> kind (lookback db loc today (d + 1)) = false).

(** The body before any note, and the three notes. *)
Definition baseText (env : Env) (statsY statsV : dayStats) : string :=
  cat ["Niederschlag: "; fmtF1 env (rainSum statsY); " mm (Vortag: ";
       fmtF1 env (rainSum statsV); " mm), Sonnenstunden: ";
       fmtD env (sunHours statsY); " h (Vortag: ";
       fmtD env (sunHours statsV);
       " h) Details: https://groloe.wetter.foxel.org/week.html"].

Definition noteStillDry (env : Env) (body : string) (d : Z) : string :=
  cat [body; nl; "Es hat seit "; fmtD env d; " Tagen nicht mehr geregnet."].

Definition noteRainSeries (env : Env) (body : string) (c : Z) : string :=
  cat [body; nl; "Es regnet seit "; fmtD env c; " Tagen jeden Tag."].

(** The publishing calls a cycle makes once title and body exist: the
    Lemmy call outside test mode with a password set, and the Mastodon call
    when it is configured and reached, that is in test mode, without a Lemmy
    call, or after a Lemmy call that returned. *)
Definition publishCalls (env : Env) (config : Config)
    (testMode loopMode : bool) (title weatherText : string) : list event :=
  let lemmy :=
    negb testMode && negb (LemmyPassword config =? "CHANGEME")%string in
  ((if lemmy then [EvLemmyPostWithRetry title weatherText loopMode] else [])
   ++ (if mastodonConfigured config
          && (negb lemmy
              || lemmyReturns env config title weatherText loopMode)
       then [EvMastodonCreatePost (MastodonServer config)
               (MastodonToken config) (cat [title; nl; weatherText])
               (MastodonVisibility config)]
       else []))%list.

(** How many events of a kind a run of [lemmyPostWithRetry] left. *)
Definition countEv (f : retryEvent -> bool) (evs : list retryEvent) : Z :=
  Z.of_nat (length (List.filter f evs)).

(** A fixed-offset zone one hour east of UTC. *)
Definition CET : Location := fixedZone 3600.

(** A network on which every pass fails at the login, and one on which the
    third pass succeeds. *)
Definition netDown : nat -> attempt := fun _ => LoginFails.
Definition netThird : nat -> attempt :=
  fun n => match n with
           | O => LoginFails
           | S O => CreatePostFails
           | _ => AllSucceed
           end.

(** A scanner for the samples: fields are split at single spaces, and the
    only number it reads is ["1.2"]. *)
Fixpoint splitSpaces (s : string) : list string :=
  match s with
  | EmptyString => [EmptyString]
  | String c rest =>
      if Ascii.eqb c (Ascii.ascii_of_nat 32) then EmptyString :: splitSpaces rest
      else match splitSpaces rest with
           | [] => [String c EmptyString]
           | l :: ls => String c l :: ls
           end
  end.

Definition sampleScanner : Scanner :=
  {| Fields s := List.filter (fun f => negb (f =? "")%string) (splitSpaces s);
     sscanfFloat s := if (s =? "1.2")%string then Some 1.2%float else None |}.

(** The title and body a cycle reported. *)
Definition reportedTitle (o : outcome) : string :=
  match o with Reported t _ => t | _ => "" end.
Definition reportedBody (o : outcome) : string :=
  match o with Reported _ b => b | _ => "" end.

(** [sunnyDay] with its readings in the opposite order. *)
Definition sunnyDayReversed : Tables :=
  mkTables (rev (archive sunnyDay)) [].

(** A store whose hourly cursor fails at the third row of [sunnyRows]. *)
Definition scanErrorDB : DB :=
  {| qSummary := qSummary (tableDB sunnyDay);
     qRain := qRain (tableDB sunnyDay);
     qRainFallback := qRainFallback (tableDB sunnyDay);
     qHourly start end_ :=
       inr {| scans := (map inr (firstn 2 sunnyRows)
                        ++ inl (ErrDriver 1) :: map inr (skipn 3 sunnyRows))%list;
              rowsErr := None |} |}.

(** Dry for 29 days, then eleven days of rain. *)
Definition drought29ThenRain : Tables :=
  mkTables twoDays
    (history refDay (replicate 29 (sqlReal 0) ++ replicate 11 (sqlReal 0.4))).

(** * Properties *)

(** ** binary64: ten times a number that is not negative *)

Section Rounding.
Variables prec emax : Z.

Lemma shr_1_nonneg mrs : 0 <= shr_m mrs -> 0 <= shr_m (shr_1 mrs).
Proof.
  destruct mrs as [m r s]. simpl.
  destruct m as [| p | p]; simpl; try lia; destruct p; simpl; lia.
Qed.

Lemma iter_shr_1_nonneg p : forall mrs,
  0 <= shr_m mrs -> 0 <= shr_m (SpecFloat.iter_pos shr_1 p mrs).
Proof.
  induction p as [p IH | p IH |]; intros mrs H; simpl.
  - apply IH, IH, shr_1_nonneg, H.
  - apply IH, IH, H.
  - apply shr_1_nonneg, H.
Qed.

Lemma shr_nonneg mrs e n : 0 <= shr_m mrs -> 0 <= shr_m (fst (shr mrs e n)).
Proof.
  intros H. unfold shr. destruct n; simpl; auto using iter_shr_1_nonneg.
Qed.

Lemma shr_fexp_nonneg m e l :
  0 <= m -> 0 <= shr_m (fst (shr_fexp prec emax m e l)).
Proof.
  intros H. unfold shr_fexp. apply shr_nonneg.
  destruct l as [| []]; simpl; exact H.
Qed.

Lemma round_nearest_even_nonneg m l : 0 <= m -> 0 <= round_nearest_even m l.
Proof.
  intros H. unfold round_nearest_even.
  destruct l as [| []]; try lia. destruct (Z.even m); lia.
Qed.

Lemma binary_round_aux_nonneg m e l :
  0 <= m -> nonnegSF (binary_round_aux prec emax false m e l) = true.
Proof.
  intros H. unfold binary_round_aux.
  pose proof (shr_fexp_nonneg m e l H) as H1.
  destruct (shr_fexp prec emax m e l) as [mrs' e']. simpl in H1.
  pose proof (shr_fexp_nonneg _ e' loc_Exact
                (round_nearest_even_nonneg _ (loc_of_shr_record mrs') H1)) as H2.
  destruct (shr_fexp prec emax _ e' loc_Exact) as [mrs'' e'']. simpl in H2.
  destruct (shr_m mrs''); try reflexivity; [| lia].
  destruct (e'' <=? emax - prec); reflexivity.
Qed.

Lemma SFmul_nonneg x my ey :
  nonnegSF x = true ->
  nonnegSF (SFmul prec emax x (S754_finite false my ey)) = true.
Proof.
  destruct x as [s | s | | s m e]; simpl; try discriminate.
  - reflexivity.
  - destruct s; [discriminate | reflexivity].
  - destruct s; [discriminate |]. intros _. simpl.
    apply binary_round_aux_nonneg. lia.
Qed.
End Rounding.

Lemma ge_zero_nonneg x : ge x 0 = nonnegSF (Prim2SF x).
Proof.
  unfold ge. rewrite leb_spec. change (Prim2SF 0) with (S754_zero false).
  unfold SFleb.
  destruct (Prim2SF x) as [s | s | | s m e]; simpl; try reflexivity;
    destruct s; reflexivity.
Qed.

Lemma nonneg_not_nan x : nonnegSF (Prim2SF x) = true -> IsNaN x = false.
Proof.
  unfold IsNaN, is_nan. rewrite FloatAxioms.eqb_spec. unfold SFeqb.
  destruct (Prim2SF x) as [s | s | | s m e]; simpl;
    try discriminate; try reflexivity.
  - destruct s; reflexivity.
  - destruct s; [discriminate |]. intros _.
    rewrite Z.compare_refl, Pos.compare_cont_refl. reflexivity.
Qed.

(** Ten times a value that is [>= 0] is [>= 0], and is not NaN. *)
Lemma times_ten_nonneg x :
  ge x 0 = true ->
  ge (x * 10.0)%float 0 = true /\ IsNaN (x * 10.0)%float = false.
Proof.
  rewrite ge_zero_nonneg. intros H.
  assert (N : nonnegSF (Prim2SF (x * 10.0)) = true).
  { rewrite mul_spec.
    assert (E : exists m e, Prim2SF 10.0 = S754_finite false m e)
      by (vm_compute; eauto).
    destruct E as (m & e & ->). apply SFmul_nonneg. exact H. }
  split; [rewrite ge_zero_nonneg; exact N | apply nonneg_not_nan; exact N].
Qed.

(** ** The writer monad *)

Lemma value_bind {A B : Type} (m : M A) (k : A -> M B) :
  value (bind m k) = value (k (value m)).
Proof.
  unfold value, bind. destruct m as [a w1]. simpl.
  destruct (k a) as [b w2]. reflexivity.
Qed.

Lemma events_bind {A B : Type} (m : M A) (k : A -> M B) :
  events (bind m k) = (events m ++ events (k (value m)))%list.
Proof.
  unfold events, value, bind. destruct m as [a w1]. simpl.
  destruct (k a) as [b w2]. reflexivity.
Qed.

Lemma value_queryRain db ts : value (queryRain db ts) = qRain db ts.
Proof. reflexivity. Qed.

Lemma events_queryRain db ts : events (queryRain db ts) = [EvRain ts].
Proof. reflexivity. Qed.

Lemma M_eta {A : Type} (m : M A) : m = (value m, events m).
Proof. destruct m; reflexivity. Qed.

(** ** The streak scans *)

Lemma scanQueries_nil loc today i n : n <= 0 -> scanQueries loc today i n = [].
Proof. intros H. unfold scanQueries. rewrite seqZ_nil by lia. reflexivity. Qed.

Lemma scanQueries_cons loc today i n :
  0 < n ->
  scanQueries loc today i n
  = EvRain (midnight loc (today - i)) :: scanQueries loc today (i + 1) (n - 1).
Proof.
  intros H. unfold scanQueries. rewrite seqZ_cons by lia.
  replace (Z.succ i) with (i + 1) by lia.
  replace (Z.pred n) with (n - 1) by lia. reflexivity.
Qed.

Section Scans.
Variables (db : DB) (loc : Location) (today : Z).

#[local] Abbreviation day i := (lookback db loc today i).

(** One pass of the dry scan, spelled out. *)
Lemma dryScan_step fuel i n :
  i < 30 ->
  dryScan (S fuel) db loc today i n
  = match day i with
    | inl _ => (Some n, [EvRain (midnight loc (today - i))])
    | inr v =>
        if rained v
        then (Some n, [EvRain (midnight loc (today - i))])
        else (value (dryScan fuel db loc today (i + 1) (n + 1)),
              EvRain (midnight loc (today - i))
              :: events (dryScan fuel db loc today (i + 1) (n + 1)))
    end.
Proof.
  intros Hi. unfold lookback. simpl.
  apply Z.ltb_lt in Hi. rewrite Hi.
  unfold queryRain, bind, emit, ret. simpl.
  destruct (qRain db (midnight loc (today - i))) as [e | v]; [reflexivity |].
  unfold rained.
  destruct (Valid v && gt (Float64 v * 10.0) 0); [reflexivity |].
  destruct (dryScan fuel db loc today (i + 1) (n + 1)); reflexivity.
Qed.

Lemma dryScan_exit fuel i n :
  30 <= i -> dryScan (S fuel) db loc today i n = (Some n, []).
Proof.
  intros Hi. simpl. apply Z.ltb_ge in Hi. rewrite Hi. reflexivity.
Qed.

(** One pass of the wet scan, spelled out. *)
Lemma wetScan_step fuel i n :
  i < 30 ->
  wetScan (S fuel) db loc today i n
  = match day i with
    | inl _ => (Some n, [EvRain (midnight loc (today - i))])
    | inr v =>
        if rained v
        then (value (wetScan fuel db loc today (i + 1) (n + 1)),
              EvRain (midnight loc (today - i))
              :: events (wetScan fuel db loc today (i + 1) (n + 1)))
        else (Some n, [EvRain (midnight loc (today - i))])
    end.
Proof.
  intros Hi. unfold lookback. simpl.
  apply Z.ltb_lt in Hi. rewrite Hi.
  unfold queryRain, bind, emit, ret. simpl.
  destruct (qRain db (midnight loc (today - i))) as [e | v]; [reflexivity |].
  unfold rained.
  destruct (Valid v && gt (Float64 v * 10.0) 0); [| reflexivity].
  destruct (wetScan fuel db loc today (i + 1) (n + 1)); reflexivity.
Qed.

Lemma wetScan_exit fuel i n :
  30 <= i -> wetScan (S fuel) db loc today i n = (Some n, []).
Proof.
  intros Hi. simpl. apply Z.ltb_ge in Hi. rewrite Hi. reflexivity.
Qed.

Lemma dryScan_spec fuel : forall i n,
  Z.max 0 (30 - i) < Z.of_nat fuel ->
  exists k, scanResult db loc today dryDay i n (dryScan fuel db loc today i n) k.
Proof.
  induction fuel as [| fuel IH]; intros i n Hfuel; [lia |].
  destruct (Z_lt_le_dec i 30) as [Hi | Hi].
  - rewrite dryScan_step by assumption.
    destruct (day i) as [e | v] eqn:Hday.
    + exists 0. unfold scanResult, value, events; cbn [fst snd].
      rewrite !Z.add_0_r, Hday.
      repeat split; try lia; try reflexivity.
      rewrite Z.min_l by lia.
      rewrite scanQueries_cons, scanQueries_nil by lia. reflexivity.
    + destruct (rained v) eqn:Hr.
      * exists 0. unfold scanResult, value, events; cbn [fst snd].
        rewrite !Z.add_0_r, Hday. cbn [dryDay wetDay]. rewrite Hr.
        repeat split; try lia; try reflexivity.
        rewrite Z.min_l by lia.
        rewrite scanQueries_cons, scanQueries_nil by lia. reflexivity.
      * destruct (IH (i + 1) (n + 1)) as (k & Hv & Hk & Hall & Hstop & Hcap & Hev);
          [lia |].
        exists (k + 1). unfold scanResult.
        repeat split.
        -- unfold value at 1. cbn [fst]. rewrite Hv. f_equal. lia.
        -- lia.
        -- intros j Hj. destruct (Z.eq_dec j i) as [-> | Hne].
           ++ rewrite Hday. cbn [dryDay]. rewrite Hr. reflexivity.
           ++ apply Hall. lia.
        -- intros Hlt. replace (i + (k + 1)) with (i + 1 + k) by lia.
           apply Hstop. lia.
        -- lia.
        -- unfold events at 1. cbn [snd]. rewrite Hev.
           rewrite (scanQueries_cons loc today i) by lia.
           do 2 f_equal. lia.
  - rewrite dryScan_exit by assumption.
    exists 0. unfold scanResult, value, events; cbn [fst snd].
    repeat split; try lia; try (f_equal; lia).
    rewrite scanQueries_nil by lia. reflexivity.
Qed.

Lemma wetScan_spec fuel : forall i n,
  Z.max 0 (30 - i) < Z.of_nat fuel ->
  exists k, scanResult db loc today wetDay i n (wetScan fuel db loc today i n) k.
Proof.
  induction fuel as [| fuel IH]; intros i n Hfuel; [lia |].
  destruct (Z_lt_le_dec i 30) as [Hi | Hi].
  - rewrite wetScan_step by assumption.
    destruct (day i) as [e | v] eqn:Hday.
    + exists 0. unfold scanResult, value, events; cbn [fst snd].
      rewrite !Z.add_0_r, Hday.
      repeat split; try lia; try reflexivity.
      rewrite Z.min_l by lia.
      rewrite scanQueries_cons, scanQueries_nil by lia. reflexivity.
    + destruct (rained v) eqn:Hr.
      * destruct (IH (i + 1) (n + 1)) as (k & Hv & Hk & Hall & Hstop & Hcap & Hev);
          [lia |].
        exists (k + 1). unfold scanResult.
        repeat split.
        -- unfold value at 1. cbn [fst]. rewrite Hv. f_equal. lia.
        -- lia.
        -- intros j Hj. destruct (Z.eq_dec j i) as [-> | Hne].
           ++ rewrite Hday. cbn [wetDay]. exact Hr.
           ++ apply Hall. lia.
        -- intros Hlt. replace (i + (k + 1)) with (i + 1 + k) by lia.
           apply Hstop. lia.
        -- lia.
        -- unfold events at 1. cbn [snd]. rewrite Hev.
           rewrite (scanQueries_cons loc today i) by lia.
           do 2 f_equal. lia.
      * exists 0. unfold scanResult, value, events; cbn [fst snd].
        rewrite !Z.add_0_r, Hday. cbn [dryDay wetDay]. rewrite Hr.
        repeat split; try lia; try reflexivity.
        rewrite Z.min_l by lia.
        rewrite scanQueries_cons, scanQueries_nil by lia. reflexivity.
  - rewrite wetScan_exit by assumption.
    exists 0. unfold scanResult, value, events; cbn [fst snd].
    repeat split; try lia; try (f_equal; lia).
    rewrite scanQueries_nil by lia. reflexivity.
Qed.
(** A day is of exactly one kind. *)
Lemma day_kinds (r : error + NullFloat64) :
  (wetDay r = true /\ dryDay r = false /\ unreadable r = false)
  \/ (wetDay r = false /\ dryDay r = true /\ unreadable r = false)
  \/ (wetDay r = false /\ dryDay r = false /\ unreadable r = true).
Proof.
  destruct r as [e | v]; simpl; [tauto |].
  destruct (rained v); simpl; tauto.
Qed.

Lemma nullRow_dry (r : error + NullFloat64) :
  nullRow r = true -> dryDay r = true /\ wetDay r = false.
Proof.
  destruct r as [e | v]; simpl; [discriminate |].
  unfold rained. destruct (Valid v); simpl; [discriminate | auto].
Qed.

Lemma In_scanQueries i n j :
  i <= j < i + n ->
  In (EvRain (midnight loc (today - j))) (scanQueries loc today i n).
Proof.
  intros Hj. unfold scanQueries.
  apply (in_map (fun j => EvRain (midnight loc (today - j)))).
  apply list_elem_of_In, elem_of_seqZ. lia.
Qed.

Lemma length_scanQueries i n :
  0 <= n -> Z.of_nat (length (scanQueries loc today i n)) = n.
Proof.
  intros Hn. unfold scanQueries. rewrite length_map, length_seqZ. lia.
Qed.

(** Both scans return, within the fuel they are given. *)
Lemma dryScan_total :
  exists k, scanResult db loc today dryDay 1 0 (daysSinceRain db loc today) k.
Proof. apply dryScan_spec. unfold scanFuel. lia. Qed.

Lemma wetScan_total :
  exists k, scanResult db loc today wetDay 1 0 (consecutiveRainDays db loc today) k.
Proof. apply wetScan_spec. unfold scanFuel. lia. Qed.

(** An unbroken run over all the days a scan can visit counts 29. *)
Lemma unbroken_dry_counts_29 :
  (forall j, 1 <= j < 30 -> dryDay (day j) = true) ->
  value (daysSinceRain db loc today) = Some 29
  /\ events (daysSinceRain db loc today) = scanQueries loc today 1 29.
Proof.
  intros Hall.
  destruct dryScan_total as (k & Hv & Hk & _ & Hstop & Hcap & Hev).
  assert (k = 29) as ->.
  { destruct (Z_lt_le_dec (1 + k) 30) as [Hlt | Hge]; [| lia].
    specialize (Hstop Hlt). rewrite Hall in Hstop by lia. discriminate. }
  split; [exact Hv | exact Hev].
Qed.

Lemma unbroken_wet_counts_29 :
  (forall j, 1 <= j < 30 -> wetDay (day j) = true) ->
  value (consecutiveRainDays db loc today) = Some 29
  /\ events (consecutiveRainDays db loc today) = scanQueries loc today 1 29.
Proof.
  intros Hall.
  destruct wetScan_total as (k & Hv & Hk & _ & Hstop & Hcap & Hev).
  assert (k = 29) as ->.
  { destruct (Z_lt_le_dec (1 + k) 30) as [Hlt | Hge]; [| lia].
    specialize (Hstop Hlt). rewrite Hall in Hstop by lia. discriminate. }
  split; [exact Hv | exact Hev].
Qed.

(** No scan counts more than 29 days or sends more than 29 statements. *)
Lemma scans_bounded :
  exists d c,
    value (daysSinceRain db loc today) = Some d
    /\ value (consecutiveRainDays db loc today) = Some c
    /\ 0 <= d <= 29 /\ 0 <= c <= 29
    /\ (length (events (daysSinceRain db loc today)) <= 29)%nat
    /\ (length (events (consecutiveRainDays db loc today)) <= 29)%nat.
Proof.
  destruct dryScan_total as (d & Hd & Hd0 & _ & _ & Hdcap & Hdev).
  destruct wetScan_total as (c & Hc & Hc0 & _ & _ & Hccap & Hcev).
  exists d, c. repeat split; try assumption; try lia.
  - rewrite Hdev. apply Nat2Z.inj_le. rewrite length_scanQueries; lia.
  - rewrite Hcev. apply Nat2Z.inj_le. rewrite length_scanQueries; lia.
Qed.

(** C4.  Both scans return; at most one of the two counters is non-zero; a
    wet first lookback day leaves [daysSinceRain] at 0, a dry one leaves
    [consecutiveRainDays] at 0; and both are 0 exactly when the rollup
    statement for the first lookback day fails or finds no row. *)
Theorem streaks_mutually_exclusive :
  exists d c,
    value (daysSinceRain db loc today) = Some d
    /\ value (consecutiveRainDays db loc today) = Some c
    /\ (d = 0 \/ c = 0)
    /\ (wetDay (day 1) = true -> d = 0)
    /\ (dryDay (day 1) = true -> c = 0)
    /\ (d = 0 /\ c = 0 <-> unreadable (day 1) = true).
Proof.
  destruct dryScan_total as (d & Hd & Hd0 & Hdall & Hdstop & _ & _).
  destruct wetScan_total as (c & Hc & Hc0 & Hcall & Hcstop & _ & _).
  exists d, c.
  assert (Hdry : 0 < d -> dryDay (day 1) = true) by (intros; apply Hdall; lia).
  assert (Hwet : 0 < c -> wetDay (day 1) = true) by (intros; apply Hcall; lia).
  assert (Hd1 : d = 0 -> dryDay (day 1) = false).
  { intros ->. apply Hdstop. lia. }
  assert (Hc1 : c = 0 -> wetDay (day 1) = false).
  { intros ->. apply Hcstop. lia. }
  destruct (day_kinds (day 1)) as [(W & D & U) | [(W & D & U) | (W & D & U)]];
    rewrite W, D, U in *.
  - assert (d = 0) by (destruct (Z.eq_dec d 0); [assumption |];
                       assert (false = true) by (apply Hdry; lia); discriminate).
    repeat split; auto; try discriminate.
    intros [_ Hc']. apply Hc1 in Hc'. discriminate.
  - assert (c = 0) by (destruct (Z.eq_dec c 0); [assumption |];
                       assert (false = true) by (apply Hwet; lia); discriminate).
    repeat split; auto; try discriminate.
    intros [Hd' _]. apply Hd1 in Hd'. discriminate.
  - assert (d = 0) by (destruct (Z.eq_dec d 0); [assumption |];
                       assert (false = true) by (apply Hdry; lia); discriminate).
    assert (c = 0) by (destruct (Z.eq_dec c 0); [assumption |];
                       assert (false = true) by (apply Hwet; lia); discriminate).
    repeat split; auto.
Qed.

(** C9.  Let day [j] have a rollup row with a NULL sum.  If the days before
    it are dry, the dry scan counts day [j] too and goes on to query day
    [j + 1]; if the days before it are wet, the wet scan ends at day [j]
    with [j - 1] wet days.  Whenever the dry scan ends before the 29th day
    on a day without rain, that day's statement failed or found no row. *)
Theorem null_sum_is_a_dry_day j :
  1 <= j < 30 ->
  nullRow (day j) = true ->
  ((forall i, 1 <= i < j -> dryDay (day i) = true) ->
     exists d, value (daysSinceRain db loc today) = Some d
       /\ j <= d
       /\ (j < 29 -> In (EvRain (midnight loc (today - (j + 1))))
                       (events (daysSinceRain db loc today))))
  /\ ((forall i, 1 <= i < j -> wetDay (day i) = true) ->
        value (consecutiveRainDays db loc today) = Some (j - 1)
        /\ events (consecutiveRainDays db loc today)
           = scanQueries loc today 1 j)
  /\ (forall d, value (daysSinceRain db loc today) = Some d -> d < 29 ->
        wetDay (day (d + 1)) = false -> unreadable (day (d + 1)) = true).
Proof.
  intros Hj Hnull. destruct (nullRow_dry _ Hnull) as [Hjdry Hjwet].
  split; [| split].
  - intros Hbefore.
    destruct dryScan_total as (d & Hd & Hd0 & Hdall & Hdstop & Hdcap & Hdev).
    exists d. rewrite Z.add_0_l in Hd.
    assert (Hjd : j <= d).
    { destruct (Z_le_gt_dec j d) as [? | Hgt]; [assumption | exfalso].
      assert (Hs : dryDay (day (1 + d)) = false) by (apply Hdstop; lia).
      destruct (Z.eq_dec (1 + d) j) as [E | E].
      - rewrite E, Hjdry in Hs. discriminate.
      - rewrite Hbefore in Hs by lia. discriminate. }
    split; [exact Hd | split; [exact Hjd |]].
    intros Hlt. rewrite Hdev. apply In_scanQueries. lia.
  - intros Hbefore.
    destruct wetScan_total as (c & Hc & Hc0 & Hcall & Hcstop & Hccap & Hcev).
    assert (c = j - 1) as ->.
    { destruct (Z_le_gt_dec j c) as [Hle | Hgt].
      + rewrite Hcall in Hjwet by lia. discriminate.
      + destruct (Z.eq_dec (1 + c) j) as [E | E]; [lia | exfalso].
        assert (Hs : wetDay (day (1 + c)) = false) by (apply Hcstop; lia).
        rewrite Hbefore in Hs by lia. discriminate. }
    split; [exact Hc |].
    rewrite Hcev. f_equal. lia.
  - intros d Hd Hlt Hnotwet.
    destruct dryScan_total as (k & Hk & Hk0 & _ & Hkstop & _ & _).
    rewrite Z.add_0_l in Hk. rewrite Hk in Hd. injection Hd as <-.
    assert (Hs : dryDay (day (1 + k)) = false) by (apply Hkstop; lia).
    replace (k + 1) with (1 + k) in * by lia.
    destruct (day_kinds (day (1 + k))) as [(W & D & U) | [(W & D & U) | (W & D & U)]];
      congruence.
Qed.
End Scans.

(** ** getStats, block by block *)

Section GetStats.
Variables (db : DB) (loc : Location) (start end_ : Z).

#[local] Abbreviation dayStartUnix := (midnight loc (civilDay loc start)).

(** With the summary row scanned, [getStats] is its three blocks in a row. *)
Lemma getStats_blocks a b :
  qSummary db start end_ = inr (a, b) ->
  let s1 := getStats_temps start end_ a b zeroStats in
  let s2 := getStats_rain db loc start end_ (value s1) in
  let s3 := getStats_sun db loc start end_ (value s2) in
  value (getStats db loc start end_) = value s3
  /\ events (getStats db loc start end_)
     = (EvSummary start end_ :: events s1 ++ events s2 ++ events s3)%list.
Proof.
  intros Hq s1 s2 s3. unfold getStats.
  rewrite value_bind, events_bind.
  change (value (querySummary db start end_)) with (qSummary db start end_).
  rewrite Hq. rewrite !value_bind, !events_bind.
  split; reflexivity.
Qed.

Lemma getStats_summary_fails err :
  qSummary db start end_ = inl err ->
  getStats db loc start end_
  = ((zeroStats, Some err), [EvSummary start end_]).
Proof.
  intros Hq. unfold getStats, querySummary, bind, emit, ret. simpl.
  rewrite Hq. reflexivity.
Qed.

(** Block 1 touches the extremes only. *)
Lemma temps_value a b s :
  value (getStats_temps start end_ a b s)
  = mkStats (if Valid a then Float64 a else NaN)
            (if Valid b then Float64 b else NaN) (rainSum s) (sunHours s).
Proof.
  unfold getStats_temps. destruct (Valid a), (Valid b); reflexivity.
Qed.

Lemma temps_events a b s :
  events (getStats_temps start end_ a b s)
  = ((if Valid a then [] else [EvStderr (WarnMaxNull start end_)])
     ++ (if Valid b then [] else [EvStderr (WarnMinNull start end_)]))%list.
Proof.
  unfold getStats_temps. destruct (Valid a), (Valid b); reflexivity.
Qed.

(** Block 2, by the answers to the two rollup statements. *)
Lemma rain_exact v s :
  qRain db dayStartUnix = inr v ->
  getStats_rain db loc start end_ s
  = if Valid v
    then (with_rainSum s (Float64 v * 10.0)%float, [EvRain dayStartUnix])
    else (with_rainSum s 0%float,
          [EvRain dayStartUnix; EvStderr (WarnRainNull dayStartUnix)]).
Proof.
  intros Hq. unfold getStats_rain, queryRain, bind, emit, ret. simpl.
  rewrite Hq. destruct (Valid v); reflexivity.
Qed.

Lemma rain_fallback e v s :
  qRain db dayStartUnix = inl e ->
  qRainFallback db start end_ = inr v ->
  getStats_rain db loc start end_ s
  = if Valid v
    then (with_rainSum s (Float64 v * 10.0)%float,
          [EvRain dayStartUnix; EvRainFallback start end_])
    else (with_rainSum s 0%float,
          [EvRain dayStartUnix; EvRainFallback start end_;
           EvStderr (WarnRainNull dayStartUnix)]).
Proof.
  intros Hq Hf.
  unfold getStats_rain, queryRain, queryRainFallback, bind, emit, ret. simpl.
  rewrite Hq, Hf. destruct (Valid v); reflexivity.
Qed.

Lemma rain_absent e e' s :
  qRain db dayStartUnix = inl e ->
  qRainFallback db start end_ = inl e' ->
  getStats_rain db loc start end_ s
  = (with_rainSum s 0%float,
     [EvRain dayStartUnix; EvRainFallback start end_;
      EvStderr (WarnRainNotFound dayStartUnix)]).
Proof.
  intros Hq Hf.
  unfold getStats_rain, queryRain, queryRainFallback, bind, emit, ret. simpl.
  rewrite Hq, Hf. reflexivity.
Qed.

(** Block 3 sends one statement and leaves all but [sunHours] alone. *)
Lemma sun_events s :
  events (getStats_sun db loc start end_ s) = [EvHourly start end_].
Proof.
  unfold getStats_sun, queryHourly, bind, emit, ret. simpl.
  destruct (qHourly db start end_) as [e | rows]; [reflexivity |].
  destruct (scanRows loc (scans rows) ∅); [reflexivity |].
  destruct (rowsErr rows); reflexivity.
Qed.

Lemma sun_keeps s :
  let s' := fst (value (getStats_sun db loc start end_ s)) in
  tMax s' = tMax s /\ tMin s' = tMin s /\ rainSum s' = rainSum s.
Proof.
  unfold getStats_sun, queryHourly, bind, emit, ret. simpl.
  destruct (qHourly db start end_) as [e | rows]; [auto |].
  destruct (scanRows loc (scans rows) ∅); [auto |].
  destruct (rowsErr rows); auto.
Qed.

(** The error block 3 returns is the one of the hourly statement, of a
    [Scan], or of [rows.Err]. *)
Lemma sun_error s :
  snd (value (getStats_sun db loc start end_ s))
  = match qHourly db start end_ with
    | inl err => Some err
    | inr rows =>
        match scanRows loc (scans rows) ∅ with
        | inl err => Some err
        | inr _ => rowsErr rows
        end
    end.
Proof.
  unfold getStats_sun, queryHourly, bind, emit, ret. simpl.
  destruct (qHourly db start end_) as [e | rows]; [reflexivity |].
  destruct (scanRows loc (scans rows) ∅); [reflexivity |].
  destruct (rowsErr rows); reflexivity.
Qed.

(** The rain total [getStats] returns is the one block 2 set. *)
Lemma getStats_rainSum a b :
  qSummary db start end_ = inr (a, b) ->
  rainSum (fst (value (getStats db loc start end_)))
  = rainSum (value (getStats_rain db loc start end_
                      (value (getStats_temps start end_ a b zeroStats)))).
Proof.
  intros Hq. destruct (getStats_blocks a b Hq) as [Hv _].
  rewrite Hv. apply sun_keeps.
Qed.
End GetStats.

(** ** The table-backed store *)

Lemma firstRow_In {A : Type} (rs : list A) (r : A) :
  firstRow rs = inr r -> In r rs.
Proof. destruct rs; simpl; [discriminate | intros [= ->]; auto]. Qed.

Lemma firstRow_none {A : Type} (rs : list A) (e : error) :
  firstRow rs = inl e -> rs = [] /\ e = ErrNoRows.
Proof. destruct rs; simpl; [intros [= <-]; auto | discriminate]. Qed.

(** The exact-midnight statement answers with the sum of a row keyed by
    the very timestamp asked for, and with [ErrNoRows] only if there is no
    such row. *)
Lemma tableDB_exact t ts :
  match qRain (tableDB t) ts with
  | inr v => In (ts, v) (archive_day_rain t)
  | inl e => e = ErrNoRows /\ forall v, ~ In (ts, v) (archive_day_rain t)
  end.
Proof.
  cbn [qRain tableDB].
  destruct (firstRow _) as [e | v] eqn:E.
  - apply firstRow_none in E. destruct E as [E ->]. split; [reflexivity |].
    intros v Hin.
    assert (Hm : In v (map snd (List.filter (fun r => fst r =? ts)
                                  (archive_day_rain t)))).
    { apply in_map_iff. exists (ts, v). split; [reflexivity |].
      apply filter_In. split; [exact Hin | apply Z.eqb_refl]. }
    rewrite E in Hm. exact Hm.
  - apply firstRow_In, in_map_iff in E. destruct E as ([ts' v'] & <- & Hin).
    apply filter_In in Hin. destruct Hin as [Hin Hts].
    apply Z.eqb_eq in Hts. cbn in Hts. subst ts'. exact Hin.
Qed.

(** The time-span statement answers with the sum of a row whose timestamp
    lies in [start, end), and with [ErrNoRows] only if there is none. *)
Lemma tableDB_fallback t start end_ :
  match qRainFallback (tableDB t) start end_ with
  | inr v => exists ts, In (ts, v) (archive_day_rain t) /\ start <= ts < end_
  | inl e => e = ErrNoRows
             /\ forall ts v, In (ts, v) (archive_day_rain t) ->
                  ~ start <= ts < end_
  end.
Proof.
  cbn [qRainFallback tableDB].
  destruct (firstRow _) as [e | v] eqn:E.
  - apply firstRow_none in E. destruct E as [E ->]. split; [reflexivity |].
    intros ts v Hin Hts.
    assert (Hm : In v (map snd (List.filter
                                  (fun r => inWindow start end_ (fst r))
                                  (archive_day_rain t)))).
    { apply in_map_iff. exists (ts, v). split; [reflexivity |].
      apply filter_In. split; [exact Hin |]. unfold inWindow. cbn.
      apply andb_true_iff. split; [apply Z.leb_le | apply Z.ltb_lt]; lia. }
    rewrite E in Hm. exact Hm.
  - apply firstRow_In, in_map_iff in E. destruct E as ([ts' v'] & <- & Hin).
    apply filter_In in Hin. destruct Hin as [Hin Hts].
    unfold inWindow in Hts. cbn in Hts. apply andb_true_iff in Hts.
    destruct Hts as [H1 H2]. apply Z.leb_le in H1. apply Z.ltb_lt in H2.
    exists ts'. split; [exact Hin | lia].
Qed.

(** ** The daily rain lookup *)

Section RainLookup.
Variables (db : DB) (loc : Location) (start end_ : Z).

#[local] Abbreviation dayStartUnix := (midnight loc (civilDay loc start)).
#[local] Abbreviation stats := (fst (value (getStats db loc start end_))).
#[local] Abbreviation trace := (events (getStats db loc start end_)).

(** The whole trace of a [getStats] whose summary row was scanned. *)
Lemma getStats_trace a b :
  qSummary db start end_ = inr (a, b) ->
  trace
  = (EvSummary start end_
     :: events (getStats_temps start end_ a b zeroStats)
     ++ events (getStats_rain db loc start end_
                  (value (getStats_temps start end_ a b zeroStats)))
     ++ [EvHourly start end_])%list.
Proof.
  intros Hq. destruct (getStats_blocks db loc start end_ a b Hq) as [_ He].
  rewrite He, sun_events. reflexivity.
Qed.

Lemma getStats_error a b :
  qSummary db start end_ = inr (a, b) ->
  snd (value (getStats db loc start end_)) = hourlyError db loc start end_.
Proof.
  intros Hq. destruct (getStats_blocks db loc start end_ a b Hq) as [Hv _].
  rewrite Hv. apply sun_error.
Qed.

Lemma temps_no_rain_statement a b s :
  List.filter isRainStatement (events (getStats_temps start end_ a b s)) = [].
Proof. rewrite temps_events. destruct (Valid a), (Valid b); reflexivity. Qed.

Lemma temps_only_warnings a b s e :
  In e (events (getStats_temps start end_ a b s)) ->
  e = EvStderr (WarnMaxNull start end_) \/ e = EvStderr (WarnMinNull start end_).
Proof.
  rewrite temps_events.
  destruct (Valid a), (Valid b); simpl; intuition (subst; auto).
Qed.

(** C3.  With the summary row scanned, [rainSum] is the rollup value times
    ten, whether the value came from the exact-midnight statement or from
    the time-span fallback; it is 0 when both statements found nothing; and
    a raw value of 1.23 gives exactly the binary64 number 12.3. *)
Theorem rain_scaled_by_ten a b :
  qSummary db start end_ = inr (a, b) ->
  (forall v, qRain db dayStartUnix = inr v -> Valid v = true ->
     rainSum (fst (value (getStats db loc start end_))) = (Float64 v * 10.0)%float)
  /\ (forall e v, qRain db dayStartUnix = inl e ->
        qRainFallback db start end_ = inr v -> Valid v = true ->
        rainSum (fst (value (getStats db loc start end_))) = (Float64 v * 10.0)%float)
  /\ (forall e e', qRain db dayStartUnix = inl e ->
        qRainFallback db start end_ = inl e' ->
        rainSum (fst (value (getStats db loc start end_))) = 0%float)
  /\ (forall v, qRain db dayStartUnix = inr v
                \/ (exists e, qRain db dayStartUnix = inl e
                              /\ qRainFallback db start end_ = inr v) ->
        Valid v = true -> Float64 v = 1.23%float ->
        rainSum (fst (value (getStats db loc start end_))) = 12.3%float).
Proof.
  intros Hq. rewrite (getStats_rainSum db loc start end_ a b Hq).
  repeat split.
  - intros v Hv Hvalid. rewrite (rain_exact db loc start end_ v _ Hv), Hvalid.
    reflexivity.
  - intros e v He Hv Hvalid.
    rewrite (rain_fallback db loc start end_ e v _ He Hv), Hvalid.
    reflexivity.
  - intros e e' He He'.
    rewrite (rain_absent db loc start end_ e e' _ He He'). reflexivity.
  - intros v [Hv | (e & He & Hv)] Hvalid H123.
    + rewrite (rain_exact db loc start end_ v _ Hv), Hvalid.
      cbn [value fst with_rainSum rainSum]. rewrite H123.
      vm_compute. reflexivity.
    + rewrite (rain_fallback db loc start end_ e v _ He Hv), Hvalid.
      cbn [value fst with_rainSum rainSum]. rewrite H123.
      vm_compute. reflexivity.
Qed.

(** C7.  The statements against the rollup table are, in this order, the
    exact-midnight one keyed by the local midnight of the start day and,
    only when that one returned no row, the time-span one over
    [start, end); when the second finds nothing either, [rainSum] is 0, one
    warning goes to stderr, the hourly statement follows, and the error
    [getStats] returns is that of the sunshine block alone. *)
Theorem rain_lookup_falls_back a b :
  qSummary db start end_ = inr (a, b) ->
  List.filter isRainStatement (events (getStats db loc start end_))
  = EvRain dayStartUnix
    :: match qRain db dayStartUnix with
       | inl _ => [EvRainFallback start end_]
       | inr _ => []
       end
  /\ (forall e e', qRain db dayStartUnix = inl e ->
        qRainFallback db start end_ = inl e' ->
        rainSum (fst (value (getStats db loc start end_))) = 0%float
        /\ (events (getStats db loc start end_))
           = (EvSummary start end_
              :: events (getStats_temps start end_ a b zeroStats)
              ++ [EvRain dayStartUnix; EvRainFallback start end_;
                  EvStderr (WarnRainNotFound dayStartUnix);
                  EvHourly start end_])%list
        /\ snd (value (getStats db loc start end_))
           = hourlyError db loc start end_).
Proof.
  intros Hq. split.
  - rewrite (getStats_trace a b Hq). cbn [List.filter isRainStatement].
    rewrite !List.filter_app, temps_no_rain_statement. cbn [app].
    destruct (qRain db dayStartUnix) as [e | v] eqn:Hv.
    + destruct (qRainFallback db start end_) as [e' | v'] eqn:Hf.
      * rewrite (rain_absent db loc start end_ e e' _ Hv Hf). reflexivity.
      * rewrite (rain_fallback db loc start end_ e v' _ Hv Hf).
        destruct (Valid v'); reflexivity.
    + rewrite (rain_exact db loc start end_ v _ Hv).
      destruct (Valid v); reflexivity.
  - intros e e' He He'. repeat split.
    + rewrite (getStats_rainSum db loc start end_ a b Hq).
      rewrite (rain_absent db loc start end_ e e' _ He He'). reflexivity.
    + rewrite (getStats_trace a b Hq).
      rewrite (rain_absent db loc start end_ e e' _ He He'). reflexivity.
    + apply (getStats_error a b Hq).
Qed.

(** C10.  The time-span statement is sent exactly when the exact-midnight
    statement returned no row; a row at midnight with a NULL sum gives
    [rainSum] 0 and the NULL warning, and no time-span statement is sent. *)
Theorem null_sum_skips_fallback a b :
  qSummary db start end_ = inr (a, b) ->
  (In (EvRainFallback start end_) (events (getStats db loc start end_))
   <-> exists e, qRain db dayStartUnix = inl e)
  /\ (forall v, qRain db dayStartUnix = inr v -> Valid v = false ->
        rainSum (fst (value (getStats db loc start end_))) = 0%float
        /\ In (EvStderr (WarnRainNull dayStartUnix)) (events (getStats db loc start end_))
        /\ forall s e, ~ In (EvRainFallback s e) (events (getStats db loc start end_))).
Proof.
  intros Hq.
  assert (Hno : forall v, qRain db dayStartUnix = inr v ->
                  forall s e, ~ In (EvRainFallback s e) trace).
  { intros v Hv s e. rewrite (getStats_trace a b Hq).
    rewrite (rain_exact db loc start end_ v _ Hv).
    intros [Hin | Hin]; [discriminate |].
    apply in_app_or in Hin. destruct Hin as [Hin | Hin].
    - apply temps_only_warnings in Hin. destruct Hin; discriminate.
    - destruct (Valid v); simpl in Hin; intuition discriminate. }
  split; [split |].
  - intros Hin. destruct (qRain db dayStartUnix) as [e | v] eqn:Hv.
    + exists e. reflexivity.
    + exfalso. exact (Hno v eq_refl _ _ Hin).
  - intros [e He]. rewrite (getStats_trace a b Hq).
    right. apply in_or_app. right. apply in_or_app. left.
    destruct (qRainFallback db start end_) as [e' | v'] eqn:Hf.
    + rewrite (rain_absent db loc start end_ e e' _ He Hf). simpl. auto.
    + rewrite (rain_fallback db loc start end_ e v' _ He Hf).
      destruct (Valid v'); simpl; auto.
  - intros v Hv Hnull. repeat split.
    + rewrite (getStats_rainSum db loc start end_ a b Hq).
      rewrite (rain_exact db loc start end_ v _ Hv), Hnull. reflexivity.
    + rewrite (getStats_trace a b Hq).
      rewrite (rain_exact db loc start end_ v _ Hv), Hnull.
      right. apply in_or_app. right. simpl. auto.
    + exact (Hno v Hv).
Qed.
(** C8, as the code has it.  If every rollup value the lookup can read is
    [>= 0], then [rainSum] is [>= 0] and is not NaN; and it is 0 when
    neither statement finds a row. *)
Theorem rainSum_nonneg_for_nonneg_rollup :
  (forall v, qRain db dayStartUnix = inr v -> Valid v = true ->
     ge (Float64 v) 0 = true) ->
  (forall e v, qRain db dayStartUnix = inl e ->
     qRainFallback db start end_ = inr v -> Valid v = true ->
     ge (Float64 v) 0 = true) ->
  ge (rainSum (fst (value (getStats db loc start end_)))) 0 = true
  /\ IsNaN (rainSum (fst (value (getStats db loc start end_)))) = false
  /\ (forall e e', qRain db dayStartUnix = inl e ->
        qRainFallback db start end_ = inl e' -> rainSum (fst (value (getStats db loc start end_))) = 0%float).
Proof.
  intros Hexact Hspan.
  destruct (qSummary db start end_) as [err | [a b]] eqn:Hq.
  { rewrite (getStats_summary_fails db loc start end_ err Hq).
    repeat split. }
  rewrite (getStats_rainSum db loc start end_ a b Hq).
  destruct (qRain db dayStartUnix) as [e | v] eqn:Hv.
  - destruct (qRainFallback db start end_) as [e' | v'] eqn:Hf.
    + rewrite (rain_absent db loc start end_ e e' _ Hv Hf).
      repeat split.
    + rewrite (rain_fallback db loc start end_ e v' _ Hv Hf).
      destruct (Valid v') eqn:Hvalid.
      * cbn [value fst with_rainSum rainSum].
        destruct (times_ten_nonneg (Float64 v') (Hspan e v' eq_refl eq_refl Hvalid)).
        repeat split; try assumption; try (intros; discriminate).
      * repeat split; try (intros; discriminate).
  - rewrite (rain_exact db loc start end_ v _ Hv).
    destruct (Valid v) eqn:Hvalid.
    + cbn [value fst with_rainSum rainSum].
      destruct (times_ten_nonneg (Float64 v) (Hexact v eq_refl Hvalid)).
      repeat split; try assumption; try (intros; discriminate).
    + repeat split; try (intros; discriminate).
Qed.
End RainLookup.

(** ** The scan horizon *)

(** C1.  On a store whose rollup rows are dry for the 40 days before the
    reference day, the dry scan reports 29, not 30, after 29 statements; on
    one whose 40 days are all wet, the wet scan reports 29 as well. *)
Theorem forty_day_streak_reports_29 :
  value (daysSinceRain (tableDB drought40) UTC refDay) = Some 29
  /\ length (events (daysSinceRain (tableDB drought40) UTC refDay)) = 29%nat
  /\ value (consecutiveRainDays (tableDB rain40) UTC refDay) = Some 29
  /\ length (events (consecutiveRainDays (tableDB rain40) UTC refDay)) = 29%nat.
Proof. vm_compute. repeat split; reflexivity. Qed.

(** ** The emoji prefix *)

(** C6, as stated, fails on the blanks.  For tMax 36, tMin -1 and rainSum 5
    the prefix is neither the three fired emojis joined with single spaces
    nor that followed by a blank, and the title does not even begin with the
    single-spaced join: two blanks follow the first emoji. *)
Lemma emoji_prefix_is_not_single_spaced :
  firedEmojis (mkStats 36 (-1) 5 0) = ["🌧️"; "🏜️"; "❄️"]
  /\ emojiString (mkStats 36 (-1) 5 0) <> singleSpaced (mkStats 36 (-1) 5 0)
  /\ emojiString (mkStats 36 (-1) 5 0)
     <> (singleSpaced (mkStats 36 (-1) 5 0) ++ " ")%string
  /\ String.prefix (singleSpaced (mkStats 36 (-1) 5 0))
       (title sampleEnv 0 (mkStats 36 (-1) 5 0) (mkStats 36 (-1) 5 0)) = false.
Proof.
  vm_compute. split; [reflexivity |].
  split; [discriminate |]. split; [discriminate | reflexivity].
Qed.

(** C6, as the code has it.  The emojis that fire are those of the rules
    that hold, in the order rain, heat tier (35, else 30, else 25), frost,
    freeze, warm night.  The slice holds each of them followed by a blank of
    its own; the prefix joins the slice with one blank and appends one more,
    so that in the prefix every fired emoji is followed by two blanks; the
    prefix is empty exactly when no rule fired, and the title is the prefix
    followed by the title text.  For tMax 36, tMin -1 and rainSum 5 the
    fired emojis are rain, heatwave, frost. *)
Theorem emoji_prefix_two_blanks_in_rule_order (statsY : dayStats) :
  emojis statsY = map (fun e => (e ++ " ")%string) (firedEmojis statsY)
  /\ emojiString statsY
     = String.concat "" (map (fun e => (e ++ "  ")%string) (firedEmojis statsY))
  /\ (emojiString statsY = "" <-> firedEmojis statsY = [])
  /\ (forall env d statsV,
        title env d statsY statsV
        = (emojiString statsY ++ titleText env d statsY statsV)%string)
  /\ firedEmojis (mkStats 36 (-1) 5 0) = ["🌧️"; "🏜️"; "❄️"].
Proof.
  split; [| split; [| split; [| split]]].
  - unfold emojis, firedEmojis, emojiRules, append.
    destruct (gt (rainSum statsY) 0), (ge (tMax statsY) 35),
      (ge (tMax statsY) 30), (ge (tMax statsY) 25), (lt (tMin statsY) 0),
      (lt (tMax statsY) 0), (ge (tMin statsY) 20); reflexivity.
  - unfold emojiString, emojis, firedEmojis, emojiRules, append.
    destruct (gt (rainSum statsY) 0), (ge (tMax statsY) 35),
      (ge (tMax statsY) 30), (ge (tMax statsY) 25), (lt (tMin statsY) 0),
      (lt (tMax statsY) 0), (ge (tMin statsY) 20); reflexivity.
  - unfold emojiString, emojis, firedEmojis, emojiRules, append.
    destruct (gt (rainSum statsY) 0), (ge (tMax statsY) 35),
      (ge (tMax statsY) 30), (ge (tMax statsY) 25), (lt (tMin statsY) 0),
      (lt (tMax statsY) 0), (ge (tMin statsY) 20);
      cbn; split; intros H; try reflexivity; discriminate H.
  - intros env d statsV. reflexivity.
  - vm_compute. reflexivity.
Qed.

(** ** The NaN guard *)

Lemma getStats_no_publish db loc start end_ :
  Forall (fun e => isPublish e = false) (events (getStats db loc start end_)).
Proof.
  destruct (qSummary db start end_) as [err | [a b]] eqn:Hq.
  - rewrite (getStats_summary_fails db loc start end_ err Hq).
    repeat constructor.
  - rewrite (getStats_trace db loc start end_ a b Hq).
    constructor; [reflexivity |].
    rewrite !Forall_app. split; [| split].
    + rewrite temps_events.
      destruct (Valid a), (Valid b); repeat constructor.
    + destruct (qRain db (midnight loc (civilDay loc start))) as [e | v] eqn:Hv.
      * destruct (qRainFallback db start end_) as [e' | v'] eqn:Hf.
        -- rewrite (rain_absent db loc start end_ e e' _ Hv Hf).
           repeat constructor.
        -- rewrite (rain_fallback db loc start end_ e v' _ Hv Hf).
           destruct (Valid v'); repeat constructor.
      * rewrite (rain_exact db loc start end_ v _ Hv).
        destruct (Valid v); repeat constructor.
    + repeat constructor.
Qed.

(** The cycle never runs a scan out of fuel. *)
Lemma runWeatherPosting_fuel_suffices env db loc config testMode loopMode now :
  value (runWeatherPosting env db loc config testMode loopMode now) <> OutOfFuel.
Proof.
  unfold runWeatherPosting. rewrite value_bind.
  destruct (value (getStats db loc _ _)) as [statsY [err |]]; cbn iota;
    [discriminate |].
  rewrite value_bind.
  destruct (value (getStats db loc _ _)) as [statsV [err |]]; cbn iota;
    [discriminate |].
  destruct (IsNaN (tMax statsY) || IsNaN (tMin statsY)
            || IsNaN (tMax statsV) || IsNaN (tMin statsV)); [discriminate |].
  rewrite value_bind.
  destruct (dryScan_total db loc (civilDay loc now)) as (d & Hd & _).
  rewrite Hd. cbn iota. rewrite value_bind.
  destruct (wetScan_total db loc (civilDay loc now)) as (c & Hc & _).
  rewrite Hc. cbn iota. rewrite value_bind. discriminate.
Qed.

(** C5.  When both [getStats] calls succeed and one of the four extremes is
    NaN, the cycle ends as [Skipped]: after the events of the two [getStats]
    calls the only event is the log warning, so no streak statement is sent,
    no title or body is built, and nothing is handed to a publisher. *)
Theorem nan_skips_cycle env db loc config testMode loopMode now statsY statsV :
  let today := civilDay loc now in
  let gY := getStats db loc (midnight loc (today - 1))
              (midnight loc (today - 1 + 1)) in
  let gV := getStats db loc (midnight loc (today - 2))
              (midnight loc (today - 2 + 1)) in
  let r := runWeatherPosting env db loc config testMode loopMode now in
  value gY = (statsY, None) ->
  value gV = (statsV, None) ->
  IsNaN (tMax statsY) || IsNaN (tMin statsY)
  || IsNaN (tMax statsV) || IsNaN (tMin statsV) = true ->
  value r = Skipped
  /\ events r = (events gY ++ events gV ++ [EvLog LogNaNSkipped])%list
  /\ Forall (fun e => isPublish e = false) (events r).
Proof.
  intros today gY gV r HY HV Hnan.
  assert (Hval : value r = Skipped).
  { subst r gY gV today. unfold runWeatherPosting.
    rewrite value_bind, HY. cbn iota.
    rewrite value_bind, HV. cbn iota.
    rewrite Hnan. reflexivity. }
  assert (Hev : events r
                = (events gY ++ events gV ++ [EvLog LogNaNSkipped])%list).
  { subst r gY gV today. unfold runWeatherPosting.
    rewrite events_bind, HY. cbn iota.
    rewrite events_bind, HV. cbn iota.
    rewrite Hnan. reflexivity. }
  split; [exact Hval | split; [exact Hev |]].
  rewrite Hev, !Forall_app.
  repeat split; try apply getStats_no_publish.
  repeat constructor.
Qed.

(** ** Sunshine hours *)

Lemma Hour_range loc ts : 0 <= Hour loc ts < 24.
Proof.
  unfold Hour, secondsPerDay, secondsPerHour.
  pose proof (Z.mod_pos_bound (ts + zoneOffset loc ts) 86400 ltac:(lia)) as Hm.
  split.
  - apply Z.div_pos; lia.
  - apply Z.div_lt_upper_bound; lia.
Qed.

Lemma scanRows_ok loc hs : forall seenSun : gset Z,
  scanRows loc (map inr hs) seenSun = inr (sunnyHours loc hs ∪ seenSun).
Proof.
  induction hs as [| r hs IH]; intros seenSun; cbn [map scanRows].
  - f_equal. unfold sunnyHours. cbn. set_solver.
  - fold (qualifies r). unfold sunnyHours. cbn [List.filter].
    destruct (qualifies r); rewrite IH; f_equal; unfold sunnyHours;
      cbn [map list_to_set]; set_solver.
Qed.

(** If every [Scan] succeeds the rows are readings. *)
Lemma scanRows_all_ok loc rs : forall (seenSun out : gset Z),
  scanRows loc rs seenSun = inr out -> exists hs, rs = map inr hs.
Proof.
  induction rs as [| [e | r] rs IH]; intros seenSun out H; cbn [scanRows] in H.
  - exists []. reflexivity.
  - discriminate.
  - destruct (Valid (hr_maxSolarRad r) && ge (Float64 (hr_maxSolarRad r)) sunThreshold);
      destruct (IH _ _ H) as [hs ->]; exists (r :: hs); reflexivity.
Qed.

Lemma elem_of_sunnyHours loc hs h :
  h ∈ sunnyHours loc hs
  <-> exists r, In r hs /\ qualifies r = true /\ Hour loc (hr_ts r) = h.
Proof.
  unfold sunnyHours. rewrite elem_of_list_to_set, list_elem_of_In, in_map_iff.
  split.
  - intros (r & Hh & Hin). apply filter_In in Hin. destruct Hin. eauto.
  - intros (r & Hin & Hq & Hh). exists r. split; [exact Hh |].
    apply filter_In. auto.
Qed.

(** The size of the set is the count of buckets the specification speaks of. *)
Lemma size_sunnyHours loc hs :
  Z.of_nat (size (sunnyHours loc hs)) = sunBucketCount loc hs.
Proof.
  unfold sunBucketCount. f_equal.
  set (P := fun h => existsb (fun r => qualifies r && (Hour loc (hr_ts r) =? h)) hs).
  rewrite <- (size_list_to_set (C := gset Z) (List.filter P (seqZ 0 24))).
  - f_equal. apply set_eq. intros h.
    rewrite elem_of_sunnyHours, elem_of_list_to_set, list_elem_of_In, filter_In.
    rewrite <- list_elem_of_In, elem_of_seqZ. subst P. cbn beta.
    rewrite existsb_exists. split.
    + intros (r & Hin & Hq & Hh). split.
      * pose proof (Hour_range loc (hr_ts r)). lia.
      * exists r. split; [exact Hin |]. rewrite Hq. apply Z.eqb_eq. exact Hh.
    + intros (_ & r & Hin & Hr). apply andb_true_iff in Hr.
      destruct Hr as [Hq Hh]. apply Z.eqb_eq in Hh. eauto.
  - apply NoDup_ListNoDup, List.NoDup_filter, NoDup_ListNoDup, NoDup_seqZ.
Qed.

Lemma sunBucketCount_range loc hs : 0 <= sunBucketCount loc hs <= 24.
Proof.
  unfold sunBucketCount. split; [lia |].
  pose proof (List.filter_length_le
    (fun h => existsb (fun r => qualifies r && (Hour loc (hr_ts r) =? h)) hs)
    (seqZ 0 24)) as Hle.
  rewrite length_seqZ in Hle. lia.
Qed.

(** What a successful [getStats] stores in [sunHours]. *)
Lemma getStats_sunHours db loc start end_ s rows hs :
  value (getStats db loc start end_) = (s, None) ->
  qHourly db start end_ = inr rows ->
  scans rows = map inr hs ->
  sunHours s = Z.of_nat (size (sunnyHours loc hs)).
Proof.
  intros Hs Hrows Hscans.
  destruct (qSummary db start end_) as [err | [a b]] eqn:Hq.
  - rewrite (getStats_summary_fails db loc start end_ err Hq) in Hs.
    discriminate.
  - destruct (getStats_blocks db loc start end_ a b Hq) as [Hv _].
    rewrite Hv in Hs. revert Hs.
    unfold getStats_sun. rewrite value_bind.
    change (value (queryHourly db start end_)) with (qHourly db start end_).
    rewrite Hrows, Hscans, scanRows_ok.
    destruct (rowsErr rows); [discriminate |].
    unfold value, ret. cbn [fst]. intros [= <-]. cbn [sunHours with_sunHours].
    do 2 f_equal. set_solver.
Qed.

(** C2.  When [getStats] succeeds over the readings [hs], [sunHours] is the
    number of hour-of-day buckets 0..23 (hours taken in the location [loc])
    that hold at least one reading with radiation >= 120; it lies in 0..24;
    two such readings in the same local hour count once, in different local
    hours twice; and without such a reading it is 0. *)
Theorem sun_hours_count_distinct_buckets db loc start end_ s rows hs :
  value (getStats db loc start end_) = (s, None) ->
  qHourly db start end_ = inr rows ->
  scans rows = map inr hs ->
  sunHours s = sunBucketCount loc hs
  /\ 0 <= sunHours s <= 24
  /\ (forall r1 r2, hs = [r1; r2] ->
        qualifies r1 = true -> qualifies r2 = true ->
        (Hour loc (hr_ts r1) = Hour loc (hr_ts r2) -> sunHours s = 1)
        /\ (Hour loc (hr_ts r1) <> Hour loc (hr_ts r2) -> sunHours s = 2))
  /\ ((forall r, In r hs -> qualifies r = false) -> sunHours s = 0).
Proof.
  intros Hs Hrows Hscans.
  pose proof (getStats_sunHours db loc start end_ s rows hs Hs Hrows Hscans) as E.
  split; [| split; [| split]].
  - rewrite E. apply size_sunnyHours.
  - rewrite E, size_sunnyHours. apply sunBucketCount_range.
  - intros r1 r2 -> Hq1 Hq2. rewrite E. unfold sunnyHours.
    cbn [List.filter]. rewrite Hq1, Hq2. cbn [map list_to_set]. split.
    + intros ->.
      replace ({[Hour loc (hr_ts r2)]} ∪ ({[Hour loc (hr_ts r2)]} ∪ ∅) : gset Z)
        with ({[Hour loc (hr_ts r2)]} : gset Z) by set_solver.
      rewrite size_singleton. reflexivity.
    + intros Hne. rewrite size_union by set_solver.
      rewrite union_empty_r_L, !size_singleton. reflexivity.
  - intros Hnone. rewrite E.
    replace (sunnyHours loc hs) with (∅ : gset Z); [reflexivity |].
    symmetry. apply set_eq. intros h. rewrite elem_of_sunnyHours. split.
    + intros (r & Hin & Hq & _). rewrite Hnone in Hq by exact Hin. discriminate.
    + intros Hin. set_solver.
Qed.

(** C8, as stated, fails: a rollup row with the sum -0.5 at midnight makes
    [getStats] succeed with a [rainSum] below zero. *)
Lemma negative_rollup_gives_negative_rainSum :
  snd (value (getStats (tableDB rollupNegative) UTC yStart yEnd)) = None
  /\ lt (rainSum (fst (value (getStats (tableDB rollupNegative) UTC yStart yEnd)))) 0
     = true
  /\ ge (rainSum (fst (value (getStats (tableDB rollupNegative) UTC yStart yEnd)))) 0
     = false.
Proof. vm_compute. repeat split; reflexivity. Qed.

(** ** The theorems at sample stores *)

Lemma sun_hours_count_distinct_buckets_witness :
  sunHours (fst (value (getStats (tableDB sunnyDay) UTC yStart yEnd)))
  = sunBucketCount UTC sunnyRows
  /\ sunBucketCount UTC sunnyRows = 2.
Proof.
  split.
  - apply (sun_hours_count_distinct_buckets (tableDB sunnyDay) UTC yStart yEnd
             (fst (value (getStats (tableDB sunnyDay) UTC yStart yEnd)))
             (mkRows (map inr sunnyRows) None) sunnyRows).
    + vm_compute. reflexivity.
    + vm_compute. reflexivity.
    + reflexivity.
  - vm_compute. reflexivity.
Defined.

Lemma rain_scaled_by_ten_witness :
  rainSum (fst (value (getStats (tableDB rollupAtMidnight) UTC yStart yEnd)))
  = 12.3%float.
Proof.
  refine (proj2 (proj2 (proj2
    (rain_scaled_by_ten (tableDB rollupAtMidnight) UTC yStart yEnd
       (sqlReal 21.5) (sqlReal 21.5) _))) (sqlReal 1.23) _ _ _).
  - vm_compute. reflexivity.
  - left. vm_compute. reflexivity.
  - reflexivity.
  - reflexivity.
Defined.

Lemma rain_lookup_falls_back_witness :
  rainSum (fst (value (getStats (tableDB rollupMissing) UTC yStart yEnd)))
  = 0%float
  /\ events (getStats (tableDB rollupMissing) UTC yStart yEnd)
     = [EvSummary yStart yEnd; EvRain yStart; EvRainFallback yStart yEnd;
        EvStderr (WarnRainNotFound yStart); EvHourly yStart yEnd]
  /\ snd (value (getStats (tableDB rollupMissing) UTC yStart yEnd)) = None.
Proof.
  refine (proj2
    (rain_lookup_falls_back (tableDB rollupMissing) UTC yStart yEnd
       (sqlReal 21.5) (sqlReal 21.5) _) ErrNoRows ErrNoRows _ _).
  - vm_compute. reflexivity.
  - vm_compute. reflexivity.
  - vm_compute. reflexivity.
Defined.

Lemma null_sum_skips_fallback_witness :
  rainSum (fst (value (getStats (tableDB rollupNull) UTC yStart yEnd)))
  = 0%float
  /\ In (EvStderr (WarnRainNull yStart))
        (events (getStats (tableDB rollupNull) UTC yStart yEnd))
  /\ forall s e,
       ~ In (EvRainFallback s e)
            (events (getStats (tableDB rollupNull) UTC yStart yEnd)).
Proof.
  refine (proj2
    (null_sum_skips_fallback (tableDB rollupNull) UTC yStart yEnd
       (sqlReal 21.5) (sqlReal 21.5) _) sqlNull _ _).
  - vm_compute. reflexivity.
  - vm_compute. reflexivity.
  - reflexivity.
Defined.

Lemma rainSum_nonneg_for_nonneg_rollup_witness :
  ge (rainSum (fst (value (getStats (tableDB rollupAtMidnight) UTC yStart yEnd)))) 0
  = true.
Proof.
  refine (proj1
    (rainSum_nonneg_for_nonneg_rollup (tableDB rollupAtMidnight) UTC
       yStart yEnd _ _)).
  - intros v Hv _. vm_compute in Hv. injection Hv as <-. reflexivity.
  - intros e v He. vm_compute in He. discriminate.
Defined.

Lemma nan_skips_cycle_witness :
  value (runWeatherPosting sampleEnv (tableDB oneDayOnly) UTC sampleConfig
           false false refNow) = Skipped.
Proof.
  refine (proj1
    (nan_skips_cycle sampleEnv (tableDB oneDayOnly) UTC sampleConfig
       false false refNow
       (fst (value (getStats (tableDB oneDayOnly) UTC yStart yEnd)))
       (fst (value (getStats (tableDB oneDayOnly) UTC
                      (midnight UTC (refDay - 2)) yStart)))
       _ _ _)).
  - vm_compute. reflexivity.
  - vm_compute. reflexivity.
  - vm_compute. reflexivity.
Defined.

Lemma null_sum_is_a_dry_day_witness :
  exists d,
    value (daysSinceRain (tableDB nullInDryRun) UTC refDay) = Some d
    /\ 2 <= d
    /\ (2 < 29 -> In (EvRain (midnight UTC (refDay - (2 + 1))))
                     (events (daysSinceRain (tableDB nullInDryRun) UTC refDay))).
Proof.
  refine (proj1
    (null_sum_is_a_dry_day (tableDB nullInDryRun) UTC refDay 2 _ _) _).
  - lia.
  - vm_compute. reflexivity.
  - intros i Hi. assert (i = 1) as -> by lia. vm_compute. reflexivity.
Defined.

(** A rollup row typed an hour into the day is found by the fallback. *)
Example fallback_finds_row_in_window :
  rainSum (fst (value (getStats (tableDB rollupInWindow) UTC yStart yEnd)))
  = 5%float
  /\ List.filter isRainStatement
       (events (getStats (tableDB rollupInWindow) UTC yStart yEnd))
     = [EvRain yStart; EvRainFallback yStart yEnd].
Proof. vm_compute. split; reflexivity. Qed.

(** The prefix of the example of C6, as the title carries it. *)
Example emoji_prefix_sample :
  emojiString (mkStats 36 (-1) 5 0) = "🌧️  🏜️  ❄️  "
  /\ emojiString (mkStats 20 10 0 0) = "".
Proof. vm_compute. split; reflexivity. Qed.

(** The histories of the specification's examples. *)
Example dry_dry_wet_wet :
  value (daysSinceRain (tableDB dryDryWetWet) UTC refDay) = Some 2
  /\ value (consecutiveRainDays (tableDB dryDryWetWet) UTC refDay) = Some 0.
Proof. vm_compute. split; reflexivity. Qed.

Example wet_wet_dry :
  value (daysSinceRain (tableDB wetWetDry) UTC refDay) = Some 0
  /\ value (consecutiveRainDays (tableDB wetWetDry) UTC refDay) = Some 2.
Proof. vm_compute. split; reflexivity. Qed.

Example null_in_runs :
  value (daysSinceRain (tableDB nullInDryRun) UTC refDay) = Some 3
  /\ value (consecutiveRainDays (tableDB nullInWetRun) UTC refDay) = Some 2.
Proof. vm_compute. split; reflexivity. Qed.

(** * Further properties of the code *)

(** ** getStats: statements, errors, sunshine *)

(** X1.  The statements [getStats] sends to the store, in order: the summary
    alone when it fails; otherwise the summary, the exact-midnight rollup
    lookup, the time-span lookup only if the exact one failed, and the
    hourly readings.  Never more than four. *)
Theorem getStats_statements db loc start end_ :
  List.filter isStoreQuery (events (getStats db loc start end_))
  = match qSummary db start end_ with
    | inl _ => [EvSummary start end_]
    | inr _ =>
        EvSummary start end_
        :: EvRain (midnight loc (civilDay loc start))
        :: (match qRain db (midnight loc (civilDay loc start)) with
            | inl _ => [EvRainFallback start end_]
            | inr _ => []
            end ++ [EvHourly start end_])%list
    end.
Proof.
  destruct (qSummary db start end_) as [err | [a b]] eqn:Hq.
  - rewrite (getStats_summary_fails db loc start end_ err Hq). reflexivity.
  - rewrite (getStats_trace db loc start end_ a b Hq).
    cbn [List.filter isStoreQuery]. f_equal.
    rewrite !List.filter_app, temps_events.
    replace (List.filter isStoreQuery
               ((if Valid a then [] else [EvStderr (WarnMaxNull start end_)])
                ++ (if Valid b then [] else [EvStderr (WarnMinNull start end_)])))
      with (@nil event) by (destruct (Valid a), (Valid b); reflexivity).
    cbn [app].
    destruct (qRain db (midnight loc (civilDay loc start))) as [e | v] eqn:Hv.
    + destruct (qRainFallback db start end_) as [e' | v'] eqn:Hf.
      * rewrite (rain_absent db loc start end_ e e' _ Hv Hf). reflexivity.
      * rewrite (rain_fallback db loc start end_ e v' _ Hv Hf).
        destruct (Valid v'); reflexivity.
    + rewrite (rain_exact db loc start end_ v _ Hv).
      destruct (Valid v); reflexivity.
Qed.

(** X2.  The error [getStats] returns is the error of the summary
    statement, or else the error of the sunshine block; whatever the two
    rollup lookups answer, they never make [getStats] fail. *)
Theorem getStats_error_sources db loc start end_ :
  snd (value (getStats db loc start end_))
  = match qSummary db start end_ with
    | inl err => Some err
    | inr _ => hourlyError db loc start end_
    end.
Proof.
  destruct (qSummary db start end_) as [err | [a b]] eqn:Hq.
  - rewrite (getStats_summary_fails db loc start end_ err Hq). reflexivity.
  - apply (getStats_error db loc start end_ a b Hq).
Qed.

Lemma scanRows_fails loc hs err rest : forall seenSun : gset Z,
  scanRows loc (map inr hs ++ inl err :: rest) seenSun = inl err.
Proof.
  induction hs as [| r hs IH]; intros seenSun; cbn [map app scanRows].
  - reflexivity.
  - destruct (Valid (hr_maxSolarRad r)
              && ge (Float64 (hr_maxSolarRad r)) sunThreshold); apply IH.
Qed.

(** X3.  When the [Scan] of one hourly row fails, [getStats] returns that
    error and leaves [sunHours] at 0, however many earlier rows met the
    threshold and whatever follows; the extremes and the rain total are the
    ones already computed. *)
Theorem scan_error_discards_sun_hours db loc start end_ a b rows hs err rest :
  qSummary db start end_ = inr (a, b) ->
  qHourly db start end_ = inr rows ->
  scans rows = (map inr hs ++ inl err :: rest)%list ->
  snd (value (getStats db loc start end_)) = Some err
  /\ sunHours (fst (value (getStats db loc start end_))) = 0
  /\ tMax (fst (value (getStats db loc start end_)))
     = (if Valid a then Float64 a else NaN)
  /\ tMin (fst (value (getStats db loc start end_)))
     = (if Valid b then Float64 b else NaN).
Proof.
  intros Hq Hrows Hscans.
  destruct (getStats_blocks db loc start end_ a b Hq) as [Hv _].
  rewrite Hv. unfold getStats_sun. rewrite value_bind.
  change (value (queryHourly db start end_)) with (qHourly db start end_).
  rewrite Hrows, Hscans, scanRows_fails.
  unfold value, ret. cbn [fst snd].
  set (s1 := getStats_temps start end_ a b zeroStats).
  assert (Hkeep : forall s,
            tMax (fst (getStats_rain db loc start end_ s)) = tMax s
            /\ tMin (fst (getStats_rain db loc start end_ s)) = tMin s
            /\ sunHours (fst (getStats_rain db loc start end_ s)) = sunHours s).
  { intros s.
    destruct (qRain db (midnight loc (civilDay loc start))) as [e | v] eqn:Hr.
    - destruct (qRainFallback db start end_) as [e' | v'] eqn:Hf.
      + rewrite (rain_absent db loc start end_ e e' _ Hr Hf). auto.
      + rewrite (rain_fallback db loc start end_ e v' _ Hr Hf).
        destruct (Valid v'); auto.
    - rewrite (rain_exact db loc start end_ v _ Hr). destruct (Valid v); auto. }
  destruct (Hkeep (fst s1)) as (H1 & H2 & H3).
  pose proof (temps_value start end_ a b zeroStats) as Ht.
  unfold value in Ht. fold s1 in Ht.
  repeat split.
  - rewrite H3, Ht. reflexivity.
  - rewrite H1, Ht. reflexivity.
  - rewrite H2, Ht. reflexivity.
Qed.

Lemma sunnyHours_incl loc hs hs' :
  incl hs hs' -> sunnyHours loc hs ⊆ sunnyHours loc hs'.
Proof.
  intros Hincl h. rewrite !elem_of_sunnyHours.
  intros (r & Hin & Hq & Hh). exists r. auto.
Qed.

(** X4.  [sunHours] grows with the readings and depends on nothing but
    which readings there are: over a superset of readings it is at least
    as large, and two stores holding the same readings, in any order and
    any number of copies, give the same count. *)
Theorem sun_hours_monotone_and_order_free
    db db' loc start end_ s s' rows rows' hs hs' :
  value (getStats db loc start end_) = (s, None) ->
  qHourly db start end_ = inr rows ->
  scans rows = map inr hs ->
  value (getStats db' loc start end_) = (s', None) ->
  qHourly db' start end_ = inr rows' ->
  scans rows' = map inr hs' ->
  (incl hs hs' -> sunHours s <= sunHours s')
  /\ ((forall r, In r hs <-> In r hs') -> sunHours s = sunHours s').
Proof.
  intros Hs Hrows Hscans Hs' Hrows' Hscans'.
  rewrite (getStats_sunHours db loc start end_ s rows hs Hs Hrows Hscans).
  rewrite (getStats_sunHours db' loc start end_ s' rows' hs' Hs' Hrows' Hscans').
  split.
  - intros Hincl. apply inj_le, subseteq_size, sunnyHours_incl, Hincl.
  - intros Hsame. f_equal. f_equal. apply set_eq. intros h.
    rewrite !elem_of_sunnyHours.
    split; intros (r & Hin & Hq & Hh); exists r; (split; [apply Hsame |]; auto).
Qed.

(** ** The streak scans, characterised *)

Section ScanCharacter.
Variables (db : DB) (loc : Location) (today : Z).

#[local] Abbreviation day i := (lookback db loc today i).

Lemma leadingRun_unique kind d d' :
  leadingRun db loc today kind d -> leadingRun db loc today kind d' -> d = d'.
Proof.
  intros (Hd & Hall & Hstop) (Hd' & Hall' & Hstop').
  destruct (Z.lt_trichotomy d d') as [Hlt | [Heq | Hgt]]; [| exact Heq |].
  - assert (kind (day (d + 1)) = false) by (apply Hstop; lia).
    assert (kind (day (d + 1)) = true) by (apply Hall'; lia). congruence.
  - assert (kind (day (d' + 1)) = false) by (apply Hstop'; lia).
    assert (kind (day (d' + 1)) = true) by (apply Hall; lia). congruence.
Qed.

Lemma scanResult_leadingRun kind r k :
  scanResult db loc today kind 1 0 r k -> leadingRun db loc today kind k.
Proof.
  intros (_ & Hk & Hall & Hstop & Hcap & _). repeat split; try lia.
  - intros j Hj. apply Hall. lia.
  - intros Hlt. replace (k + 1) with (1 + k) by lia. apply Hstop. lia.
Qed.

(** X5.  [daysSinceRain] is [d] exactly when the days 1..d before the
    reference day are dry (a row whose scaled sum is not above zero, or
    NULL) and either [d] is 29 or day [d + 1] is wet or unreadable. *)
Theorem daysSinceRain_is_leading_dry_run d :
  value (daysSinceRain db loc today) = Some d
  <-> (0 <= d <= 29
       /\ (forall j, 1 <= j <= d -> dryDay (lookback db loc today j) = true)
       /\ (d < 29 -> dryDay (lookback db loc today (d + 1)) = false)).
Proof.
  destruct (dryScan_total db loc today) as (k & Hk).
  pose proof (scanResult_leadingRun dryDay _ k Hk) as Hrun.
  destruct Hk as (Hv & _). rewrite Z.add_0_l in Hv. split.
  - intros Hd. rewrite Hv in Hd. injection Hd as <-. exact Hrun.
  - intros Hd. rewrite Hv. f_equal.
    exact (leadingRun_unique dryDay k d Hrun Hd).
Qed.

(** X6.  [consecutiveRainDays] is [c] exactly when the days 1..c before
    the reference day are wet (a row whose scaled sum is above zero) and
    either [c] is 29 or day [c + 1] is dry or unreadable. *)
Theorem consecutiveRainDays_is_leading_wet_run c :
  value (consecutiveRainDays db loc today) = Some c
  <-> (0 <= c <= 29
       /\ (forall j, 1 <= j <= c -> wetDay (lookback db loc today j) = true)
       /\ (c < 29 -> wetDay (lookback db loc today (c + 1)) = false)).
Proof.
  destruct (wetScan_total db loc today) as (k & Hk).
  pose proof (scanResult_leadingRun wetDay _ k Hk) as Hrun.
  destruct Hk as (Hv & _). rewrite Z.add_0_l in Hv. split.
  - intros Hc. rewrite Hv in Hc. injection Hc as <-. exact Hrun.
  - intros Hc. rewrite Hv. f_equal.
    exact (leadingRun_unique wetDay k c Hrun Hc).
Qed.

(** X7.  Each scan asks about the days 1, 2, ... in this order, one
    statement per day, up to the day that stops it or to day 29: a scan
    that counts [d] days has sent [min (d + 1) 29] statements, at least
    one, and none about the reference day itself or a day beyond the 29th. *)
Theorem scans_query_nearest_days_first :
  exists d c,
    value (daysSinceRain db loc today) = Some d
    /\ events (daysSinceRain db loc today)
       = scanQueries loc today 1 (Z.min (d + 1) 29)
    /\ value (consecutiveRainDays db loc today) = Some c
    /\ events (consecutiveRainDays db loc today)
       = scanQueries loc today 1 (Z.min (c + 1) 29)
    /\ 1 <= Z.min (d + 1) 29 <= 29 /\ 1 <= Z.min (c + 1) 29 <= 29.
Proof.
  destruct (dryScan_total db loc today) as (d & Hd & Hd0 & _ & _ & _ & Hdev).
  destruct (wetScan_total db loc today) as (c & Hc & Hc0 & _ & _ & _ & Hcev).
  exists d, c. rewrite Z.add_0_l in Hd, Hc.
  change (30 - 1) with 29 in Hdev, Hcev.
  repeat split; try assumption; lia.
Qed.
End ScanCharacter.

Lemma dryScan_ext db db' loc today fuel : forall i n,
  (forall j, i <= j < 30 -> lookback db loc today j = lookback db' loc today j) ->
  dryScan fuel db loc today i n = dryScan fuel db' loc today i n.
Proof.
  induction fuel as [| fuel IH]; intros i n Hsame; [reflexivity |].
  destruct (Z_lt_le_dec i 30) as [Hi | Hi].
  - rewrite !dryScan_step by assumption.
    rewrite <- (Hsame i) by lia.
    rewrite (IH (i + 1) (n + 1)) by (intros; apply Hsame; lia). reflexivity.
  - rewrite !dryScan_exit by assumption. reflexivity.
Qed.

Lemma wetScan_ext db db' loc today fuel : forall i n,
  (forall j, i <= j < 30 -> lookback db loc today j = lookback db' loc today j) ->
  wetScan fuel db loc today i n = wetScan fuel db' loc today i n.
Proof.
  induction fuel as [| fuel IH]; intros i n Hsame; [reflexivity |].
  destruct (Z_lt_le_dec i 30) as [Hi | Hi].
  - rewrite !wetScan_step by assumption.
    rewrite <- (Hsame i) by lia.
    rewrite (IH (i + 1) (n + 1)) by (intros; apply Hsame; lia). reflexivity.
  - rewrite !wetScan_exit by assumption. reflexivity.
Qed.

(** X8.  The scans see the rollup of the days 1..29 before the reference
    day and nothing else: two stores that answer alike for these 29 days
    give the same counters and the same statements, whatever they hold for
    older days, for the reference day, or in the archive. *)
Theorem scans_depend_on_29_days_only db db' loc today :
  (forall j, 1 <= j < 30 ->
     lookback db loc today j = lookback db' loc today j) ->
  daysSinceRain db loc today = daysSinceRain db' loc today
  /\ consecutiveRainDays db loc today = consecutiveRainDays db' loc today.
Proof.
  intros Hsame. split.
  - apply dryScan_ext. exact Hsame.
  - apply wetScan_ext. exact Hsame.
Qed.

(** ** The reporting cycle as a whole *)

Section Cycle.
Variables (env : Env) (db : DB) (loc : Location) (config : Config).
Variables (testMode loopMode : bool) (now : Z).

#[local] Abbreviation today := (civilDay loc now).
#[local] Abbreviation gY :=
  (getStats db loc (midnight loc (today - 1)) (midnight loc (today - 1 + 1))).
#[local] Abbreviation gV :=
  (getStats db loc (midnight loc (today - 2)) (midnight loc (today - 2 + 1))).
#[local] Abbreviation cycle :=
  (runWeatherPosting env db loc config testMode loopMode now).

(** The four ways a cycle can go, with everything it did. *)
Lemma cycle_cases :
  (exists s err, value gY = (s, Some err)
     /\ cycle = (FatalYesterday err, events gY))
  \/ (exists statsY s err, value gY = (statsY, None)
        /\ value gV = (s, Some err)
        /\ cycle = (FatalVorgestern err, (events gY ++ events gV)%list))
  \/ (exists statsY statsV, value gY = (statsY, None)
        /\ value gV = (statsV, None)
        /\ IsNaN (tMax statsY) || IsNaN (tMin statsY)
           || IsNaN (tMax statsV) || IsNaN (tMin statsV) = true
        /\ cycle = (Skipped,
                    (events gY ++ events gV ++ [EvLog LogNaNSkipped])%list))
  \/ (exists statsY statsV d c, value gY = (statsY, None)
        /\ value gV = (statsV, None)
        /\ IsNaN (tMax statsY) || IsNaN (tMin statsY)
           || IsNaN (tMax statsV) || IsNaN (tMin statsV) = false
        /\ value (daysSinceRain db loc today) = Some d
        /\ value (consecutiveRainDays db loc today) = Some c
        /\ cycle
           = (Reported (title env (today - 1) statsY statsV)
                       (weatherText env statsY statsV d c),
              (events gY ++ events gV
               ++ events (daysSinceRain db loc today)
               ++ events (consecutiveRainDays db loc today)
               ++ events (publish env config testMode loopMode
                            (title env (today - 1) statsY statsV)
                            (weatherText env statsY statsV d c)))%list)).
Proof.
  rewrite (M_eta cycle). unfold runWeatherPosting.
  rewrite value_bind, events_bind.
  destruct (value gY) as [statsY [err |]] eqn:HY; cbn iota.
  { left. exists statsY, err. split; [reflexivity |].
    unfold ret, value, events. cbn [fst snd]. rewrite app_nil_r. reflexivity. }
  right. rewrite value_bind, events_bind.
  destruct (value gV) as [statsV [err |]] eqn:HV; cbn iota.
  { left. exists statsY, statsV, err. repeat split.
    unfold ret, value, events. cbn [fst snd]. rewrite app_nil_r. reflexivity. }
  right.
  destruct (IsNaN (tMax statsY) || IsNaN (tMin statsY)
            || IsNaN (tMax statsV) || IsNaN (tMin statsV)) eqn:Hnan.
  { left. exists statsY, statsV. repeat split; try assumption. }
  right.
  destruct (dryScan_total db loc today) as (d & Hd & _).
  destruct (wetScan_total db loc today) as (c & Hc & _).
  rewrite Z.add_0_l in Hd, Hc.
  exists statsY, statsV, d, c. repeat split; try assumption.
  rewrite !value_bind, !events_bind, Hd. cbn iota.
  rewrite !value_bind, !events_bind, Hc. cbn iota.
  rewrite !value_bind, !events_bind.
  unfold ret at 1 2. unfold value at 1, events at 7. cbn [fst snd].
  rewrite app_nil_r. reflexivity.
Qed.
End Cycle.

Lemma filter_none {A : Type} (f : A -> bool) (l : list A) :
  Forall (fun x => f x = false) l -> List.filter f l = [].
Proof.
  induction 1 as [| x l Hx _ IH]; [reflexivity |].
  cbn [List.filter]. rewrite Hx. exact IH.
Qed.

Lemma scanQueries_no_publish loc today i n :
  List.filter isPublish (scanQueries loc today i n) = [].
Proof.
  unfold scanQueries. induction (seqZ i n) as [| j l IH]; [reflexivity |].
  exact IH.
Qed.

Lemma scans_no_publish db loc today :
  List.filter isPublish (events (daysSinceRain db loc today)) = []
  /\ List.filter isPublish (events (consecutiveRainDays db loc today)) = [].
Proof.
  destruct (dryScan_total db loc today) as (d & _ & _ & _ & _ & _ & Hd).
  destruct (wetScan_total db loc today) as (c & _ & _ & _ & _ & _ & Hc).
  rewrite Hd, Hc. split; apply scanQueries_no_publish.
Qed.

Lemma publish_calls env config testMode loopMode t b :
  List.filter isPublish (events (publish env config testMode loopMode t b))
  = publishCalls env config testMode loopMode t b.
Proof.
  unfold publish, publishCalls.
  destruct testMode, (negb (LemmyPassword config =? "CHANGEME")%string),
    (mastodonConfigured config); cbn;
    try destruct (lemmyReturns env config t b loopMode); cbn;
    try destruct (mastodonFails env _ _ _ _); reflexivity.
Qed.

(** A Lemmy call that does not return is all the publishing tail does. *)
Lemma publish_stays_in_lemmy env config testMode loopMode t b :
  negb testMode && negb (LemmyPassword config =? "CHANGEME")%string = true ->
  lemmyReturns env config t b loopMode = false ->
  events (publish env config testMode loopMode t b)
  = [EvLemmyPostWithRetry t b loopMode].
Proof.
  intros Hl Hr. unfold publish. rewrite Hl.
  unfold bind, emit, ret, events. cbn. rewrite Hr. reflexivity.
Qed.

(** The rain total of a successful [getStats] whose exact-midnight lookup
    found a row. *)
Lemma getStats_rainSum_exact db loc start end_ s v :
  value (getStats db loc start end_) = (s, None) ->
  qRain db (midnight loc (civilDay loc start)) = inr v ->
  rainSum s = if Valid v then (Float64 v * 10.0)%float else 0%float.
Proof.
  intros Hs Hv.
  destruct (qSummary db start end_) as [err | [a b]] eqn:Hq.
  - rewrite (getStats_summary_fails db loc start end_ err Hq) in Hs.
    discriminate.
  - pose proof (getStats_rainSum db loc start end_ a b Hq) as E.
    rewrite Hs in E. cbn [fst] in E. rewrite E.
    rewrite (rain_exact db loc start end_ v _ Hv).
    destruct (Valid v); reflexivity.
Qed.

(** Yesterday's rain total as the first lookback day shows it. *)
Lemma yesterdays_rain_by_first_day db loc today statsY :
  midnightOnItsDay loc (today - 1) ->
  value (getStats db loc (midnight loc (today - 1))
           (midnight loc (today - 1 + 1))) = (statsY, None) ->
  (dryDay (lookback db loc today 1) = true -> gt (rainSum statsY) 0 = false)
  /\ (wetDay (lookback db loc today 1) = true -> gt (rainSum statsY) 0 = true).
Proof.
  intros Hmid HY. unfold midnightOnItsDay in Hmid. unfold lookback.
  destruct (qRain db (midnight loc (today - 1))) as [e | v] eqn:Hv;
    [split; discriminate |].
  rewrite (getStats_rainSum_exact db loc _ _ statsY v HY)
    by (rewrite Hmid; exact Hv).
  cbn [dryDay wetDay]. unfold rained.
  destruct (Valid v); cbn [andb negb]; split; intros H;
    try discriminate; try reflexivity.
  - apply negb_true_iff in H. exact H.
  - exact H.
Qed.

(** The first lookback day is dry under a dry streak and wet under a rain
    series. *)
Lemma first_day_of_streak db loc today d c :
  value (daysSinceRain db loc today) = Some d ->
  value (consecutiveRainDays db loc today) = Some c ->
  0 <= d /\ 0 <= c
  /\ (1 <= d -> dryDay (lookback db loc today 1) = true)
  /\ (1 <= c -> wetDay (lookback db loc today 1) = true).
Proof.
  intros Hd Hc.
  destruct (dryScan_total db loc today) as (d' & Hd').
  pose proof (scanResult_leadingRun db loc today dryDay _ d' Hd')
    as (Hd0 & Hdry & _).
  destruct Hd' as (Hd' & _). rewrite Z.add_0_l, Hd in Hd'. injection Hd' as <-.
  destruct (wetScan_total db loc today) as (c' & Hc').
  pose proof (scanResult_leadingRun db loc today wetDay _ c' Hc')
    as (Hc0 & Hwet & _).
  destruct Hc' as (Hc' & _). rewrite Z.add_0_l, Hc in Hc'. injection Hc' as <-.
  repeat split; try lia.
  - intros H1. apply Hdry. lia.
  - intros H1. apply Hwet. lia.
Qed.

(** X9.  Where the local midnight of yesterday lies on yesterday, the
    streak counters agree with yesterday's rain total: a dry streak of one
    day or more means that total is not above zero, and a rain series of one
    day or more means it is above zero.  So the branch that writes "Es hat
    nach N Tagen wieder geregnet" is never taken. *)
Theorem streaks_agree_with_yesterdays_rain db loc today statsY d c :
  midnightOnItsDay loc (today - 1) ->
  value (getStats db loc (midnight loc (today - 1))
           (midnight loc (today - 1 + 1))) = (statsY, None) ->
  value (daysSinceRain db loc today) = Some d ->
  value (consecutiveRainDays db loc today) = Some c ->
  (1 <= d -> gt (rainSum statsY) 0 = false)
  /\ (1 <= c -> gt (rainSum statsY) 0 = true)
  /\ (drySpellThreshold <=? d) && gt (rainSum statsY) 0 = false.
Proof.
  intros Hmid HY Hd Hc.
  destruct (yesterdays_rain_by_first_day db loc today statsY Hmid HY)
    as [Hdry Hwet].
  destruct (first_day_of_streak db loc today d c Hd Hc) as (_ & _ & D & W).
  split; [| split].
  - intros H1. apply Hdry, D, H1.
  - intros H1. apply Hwet, W, H1.
  - unfold drySpellThreshold.
    destruct (3 <=? d) eqn:H3; [| reflexivity].
    apply Z.leb_le in H3. cbn [andb]. apply Hdry, D. lia.
Qed.

Lemma streak_counters_exclusive db loc today d c :
  value (daysSinceRain db loc today) = Some d ->
  value (consecutiveRainDays db loc today) = Some c ->
  0 <= d /\ 0 <= c /\ (d = 0 \/ c = 0).
Proof.
  intros Hd Hc.
  destruct (dryScan_total db loc today) as (d' & Hd').
  pose proof (scanResult_leadingRun db loc today dryDay _ d' Hd')
    as (Hd0 & Hdry & _).
  destruct Hd' as (Hd' & _). rewrite Z.add_0_l, Hd in Hd'. injection Hd' as <-.
  destruct (wetScan_total db loc today) as (c' & Hc').
  pose proof (scanResult_leadingRun db loc today wetDay _ c' Hc')
    as (Hc0 & Hwet & _).
  destruct Hc' as (Hc' & _). rewrite Z.add_0_l, Hc in Hc'. injection Hc' as <-.
  repeat split; try lia.
  destruct (Z.eq_dec d 0) as [? | Hd1]; [auto |].
  destruct (Z.eq_dec c 0) as [? | Hc1]; [auto | exfalso].
  specialize (Hdry 1 ltac:(lia)). specialize (Hwet 1 ltac:(lia)).
  destruct (day_kinds (lookback db loc today 1))
    as [(W & D & U) | [(W & D & U) | (W & D & U)]]; congruence.
Qed.

(** The body, by the two counters, when the "wieder geregnet" branch is
    closed and one counter is 0. *)
Lemma weatherText_forms env statsY statsV d c :
  (drySpellThreshold <=? d) && gt (rainSum statsY) 0 = false ->
  d = 0 \/ c = 0 ->
  (weatherText env statsY statsV d c = baseText env statsY statsV
   /\ d < 3 /\ c < 3)
  \/ (weatherText env statsY statsV d c
      = noteStillDry env (baseText env statsY statsV) d
      /\ 3 <= d /\ c = 0)
  \/ (weatherText env statsY statsV d c
      = noteRainSeries env (baseText env statsY statsV) c
      /\ 3 <= c /\ d = 0).
Proof.
  intros Hclosed Hexcl. unfold weatherText, drySpellThreshold in *.
  fold (baseText env statsY statsV).
  destruct (3 <=? d) eqn:Hd.
  - apply Z.leb_le in Hd. cbn [andb] in Hclosed. rewrite Hclosed.
    assert (c = 0) as -> by lia. right. left.
    change (3 <=? 0) with false. cbn iota. repeat split; lia.
  - apply Z.leb_gt in Hd. destruct (3 <=? c) eqn:Hc.
    + apply Z.leb_le in Hc. right. right. repeat split; lia.
    + apply Z.leb_gt in Hc. left. repeat split; lia.
Qed.

(** X10.  Where the local midnight of yesterday lies on yesterday, a cycle
    that reports has a body of one of three forms: the fixed sentence alone
    (both counters below 3), the fixed sentence with "Es hat seit N Tagen
    nicht mehr geregnet." (dry streak of 3 or more, no rain series), or the
    fixed sentence with "Es regnet seit N Tagen jeden Tag." (rain series of
    3 or more, no dry streak).  It never carries two notes, and never the
    note "Es hat nach N Tagen wieder geregnet.". *)
Theorem body_has_at_most_one_note env db loc config testMode loopMode now t b :
  midnightOnItsDay loc (civilDay loc now - 1) ->
  value (runWeatherPosting env db loc config testMode loopMode now)
  = Reported t b ->
  exists statsY statsV d c,
    value (daysSinceRain db loc (civilDay loc now)) = Some d
    /\ value (consecutiveRainDays db loc (civilDay loc now)) = Some c
    /\ t = title env (civilDay loc now - 1) statsY statsV
    /\ ((b = baseText env statsY statsV /\ d < 3 /\ c < 3)
        \/ (b = noteStillDry env (baseText env statsY statsV) d
            /\ 3 <= d /\ c = 0)
        \/ (b = noteRainSeries env (baseText env statsY statsV) c
            /\ 3 <= c /\ d = 0)).
Proof.
  intros Hmid Hrun.
  destruct (cycle_cases env db loc config testMode loopMode now)
    as [(s & err & _ & E) | [(sY & s & err & _ & _ & E)
        | [(sY & sV & _ & _ & _ & E)
        | (statsY & statsV & d & c & HY & HV & _ & Hd & Hc & E)]]];
    rewrite E in Hrun; cbn in Hrun; try discriminate.
  injection Hrun as <- <-.
  exists statsY, statsV, d, c.
  split; [exact Hd | split; [exact Hc | split; [reflexivity |]]].
  apply weatherText_forms.
  - unfold drySpellThreshold.
    destruct (3 <=? d) eqn:H3; [| reflexivity].
    apply Z.leb_le in H3. cbn [andb].
    apply (yesterdays_rain_by_first_day db loc _ statsY Hmid HY).
    apply (first_day_of_streak db loc _ d c Hd Hc). lia.
  - apply (streak_counters_exclusive db loc _ d c Hd Hc).
Qed.

Lemma getStats_publish_free db loc start end_ :
  List.filter isPublish (events (getStats db loc start end_)) = [].
Proof. apply filter_none, getStats_no_publish. Qed.

(** The publishing calls in the trace of a cycle, by the way it went. *)
Lemma cycle_publish_calls env db loc config testMode loopMode now :
  List.filter isPublish
    (events (runWeatherPosting env db loc config testMode loopMode now))
  = match value (runWeatherPosting env db loc config testMode loopMode now) with
    | Reported t b => publishCalls env config testMode loopMode t b
    | _ => []
    end.
Proof.
  pose proof (scans_no_publish db loc (civilDay loc now)) as [Hdry Hwet].
  destruct (cycle_cases env db loc config testMode loopMode now)
    as [(s & err & _ & E) | [(sY & s & err & _ & _ & E)
        | [(sY & sV & _ & _ & _ & E)
        | (statsY & statsV & d & c & _ & _ & _ & _ & _ & E)]]];
    rewrite E; cbn [value events fst snd];
    rewrite ?List.filter_app, ?getStats_publish_free, ?Hdry, ?Hwet,
      ?publish_calls; reflexivity.
Qed.

(** X11.  A cycle makes publishing calls only when it reports, and then
    only these, Lemmy first and each at most once: [lemmyPostWithRetry] with
    the reported title and body, when not in test mode and the password is
    not "CHANGEME"; and [mastodonCreatePost] with title, newline and body,
    when server and token are set and the call is reached - that is in test
    mode, or when Lemmy was not called, or when the Lemmy call returned.  A
    Lemmy call that does not return is the last thing the cycle does. *)
Theorem publishing_calls_reached_in_a_cycle
    env db loc config testMode loopMode now :
  List.filter isPublish
    (events (runWeatherPosting env db loc config testMode loopMode now))
  = match value (runWeatherPosting env db loc config testMode loopMode now) with
    | Reported t b =>
        ((if negb testMode && negb (LemmyPassword config =? "CHANGEME")%string
          then [EvLemmyPostWithRetry t b loopMode] else [])
         ++ (if negb (MastodonServer config =? "")%string
                && negb (MastodonToken config =? "")%string
                && (testMode || (LemmyPassword config =? "CHANGEME")%string
                    || lemmyReturns env config t b loopMode)
             then [EvMastodonCreatePost (MastodonServer config)
                     (MastodonToken config) (cat [t; nl; b])
                     (MastodonVisibility config)]
             else []))%list
    | _ => []
    end
  /\ (forall t b,
        value (runWeatherPosting env db loc config testMode loopMode now)
        = Reported t b ->
        negb testMode && negb (LemmyPassword config =? "CHANGEME")%string
        = true ->
        lemmyReturns env config t b loopMode = false ->
        exists before,
          events (runWeatherPosting env db loc config testMode loopMode now)
          = (before ++ [EvLemmyPostWithRetry t b loopMode])%list).
Proof.
  split.
  - rewrite cycle_publish_calls.
    destruct (value (runWeatherPosting env db loc config testMode loopMode now));
      try reflexivity.
    unfold publishCalls, mastodonConfigured.
    destruct testMode, (LemmyPassword config =? "CHANGEME")%string;
      reflexivity.
  - intros t b Hrun Hl Hr.
    destruct (cycle_cases env db loc config testMode loopMode now)
      as [(s & err & _ & E) | [(sY & s & err & _ & _ & E)
          | [(sY & sV & _ & _ & _ & E)
          | (statsY & statsV & d & c & _ & _ & _ & _ & _ & E)]]];
      rewrite E in Hrun |- *; cbn [value events fst snd] in Hrun |- *;
      try discriminate.
    injection Hrun as <- <-.
    rewrite (publish_stays_in_lemmy env config testMode loopMode _ _ Hl Hr).
    eexists. rewrite !app_assoc. reflexivity.
Qed.

(** X12.  With the configuration [DefaultConfig] returns, a cycle never
    makes a publishing call, in test mode or not, whatever the store holds:
    the password is still "CHANGEME" and no Mastodon server is set. *)
Theorem default_config_never_publishes env db loc testMode loopMode now :
  Forall (fun e => isPublish e = false)
    (events (runWeatherPosting env db loc DefaultConfig testMode loopMode now)).
Proof.
  pose proof (cycle_publish_calls env db loc DefaultConfig testMode loopMode now)
    as H.
  assert (Hnil : List.filter isPublish
            (events (runWeatherPosting env db loc DefaultConfig
                       testMode loopMode now)) = []).
  { rewrite H.
    destruct (value (runWeatherPosting env db loc DefaultConfig
                       testMode loopMode now)); try reflexivity.
    unfold publishCalls. destruct testMode; reflexivity. }
  apply List.Forall_forall. intros e Hin.
  destruct (isPublish e) eqn:He; [| reflexivity].
  assert (Hin' : In e []) by (rewrite <- Hnil; apply List.filter_In; split; assumption).
  destruct Hin'.
Qed.

(** X13.  A cycle ends fatally exactly when [getStats] returns an error for
    yesterday or, failing that, for the day before; in the first case the
    day before is never asked about, and in both nothing follows the failed
    [getStats].  When both succeed the cycle is skipped or reports. *)
Theorem failing_store_aborts_cycle env db loc config testMode loopMode now :
  match
    snd (value (getStats db loc (midnight loc (civilDay loc now - 1))
                  (midnight loc (civilDay loc now - 1 + 1)))),
    snd (value (getStats db loc (midnight loc (civilDay loc now - 2))
                  (midnight loc (civilDay loc now - 2 + 1))))
  with
  | Some err, _ =>
      runWeatherPosting env db loc config testMode loopMode now
      = (FatalYesterday err,
         events (getStats db loc (midnight loc (civilDay loc now - 1))
                   (midnight loc (civilDay loc now - 1 + 1))))
  | None, Some err =>
      runWeatherPosting env db loc config testMode loopMode now
      = (FatalVorgestern err,
         (events (getStats db loc (midnight loc (civilDay loc now - 1))
                    (midnight loc (civilDay loc now - 1 + 1)))
          ++ events (getStats db loc (midnight loc (civilDay loc now - 2))
                       (midnight loc (civilDay loc now - 2 + 1))))%list)
  | None, None =>
      value (runWeatherPosting env db loc config testMode loopMode now)
      = Skipped
      \/ exists t b,
           value (runWeatherPosting env db loc config testMode loopMode now)
           = Reported t b
  end.
Proof.
  destruct (cycle_cases env db loc config testMode loopMode now)
    as [(s & err & HY & E) | [(sY & s & err & HY & HV & E)
        | [(sY & sV & HY & HV & _ & E)
        | (statsY & statsV & d & c & HY & HV & _ & _ & _ & E)]]];
    rewrite ?HY, ?HV; cbn [snd]; try exact E.
  - left. rewrite E. reflexivity.
  - right. rewrite E. eauto.
Qed.

Lemma getStats_statement_bound db loc start end_ :
  (length (List.filter isStoreQuery (events (getStats db loc start end_)))
   <= 4)%nat.
Proof.
  destruct (qSummary db start end_) as [err | [a b]] eqn:Hq.
  - rewrite (getStats_summary_fails db loc start end_ err Hq). cbn. lia.
  - rewrite (getStats_trace db loc start end_ a b Hq).
    cbn [List.filter isStoreQuery length].
    rewrite !List.filter_app, !length_app, temps_events.
    assert (Ht : length (List.filter isStoreQuery
               ((if Valid a then [] else [EvStderr (WarnMaxNull start end_)])
                ++ (if Valid b then []
                    else [EvStderr (WarnMinNull start end_)]))) = 0%nat)
      by (destruct (Valid a), (Valid b); reflexivity).
    rewrite Ht.
    destruct (qRain db (midnight loc (civilDay loc start))) as [e | v] eqn:Hv.
    + destruct (qRainFallback db start end_) as [e' | v'] eqn:Hf.
      * rewrite (rain_absent db loc start end_ e e' _ Hv Hf). cbn. lia.
      * rewrite (rain_fallback db loc start end_ e v' _ Hv Hf).
        destruct (Valid v'); cbn; lia.
    + rewrite (rain_exact db loc start end_ v _ Hv).
      destruct (Valid v); cbn; lia.
Qed.

Lemma publish_no_store_query env config testMode loopMode t b :
  List.filter isStoreQuery (events (publish env config testMode loopMode t b))
  = [].
Proof.
  unfold publish.
  destruct testMode, (negb (LemmyPassword config =? "CHANGEME")%string),
    (mastodonConfigured config); cbn;
    try destruct (lemmyReturns env config t b loopMode); cbn;
    try destruct (mastodonFails env _ _ _ _); reflexivity.
Qed.

(** X14.  A cycle sends at most 66 statements to the store: at most four
    for each of the two days of statistics and at most 29 for each of the
    two scans.  A cycle that is skipped or ends fatally sends at most
    eight. *)
Theorem cycle_statement_bound env db loc config testMode loopMode now :
  (length (List.filter isStoreQuery
     (events (runWeatherPosting env db loc config testMode loopMode now)))
   <= 66)%nat
  /\ ((forall t b,
         value (runWeatherPosting env db loc config testMode loopMode now)
         <> Reported t b) ->
      (length (List.filter isStoreQuery
         (events (runWeatherPosting env db loc config testMode loopMode now)))
       <= 8)%nat).
Proof.
  pose proof (getStats_statement_bound db loc
                (midnight loc (civilDay loc now - 1))
                (midnight loc (civilDay loc now - 1 + 1))) as BY.
  pose proof (getStats_statement_bound db loc
                (midnight loc (civilDay loc now - 2))
                (midnight loc (civilDay loc now - 2 + 1))) as BV.
  destruct (scans_bounded db loc (civilDay loc now))
    as (d' & c' & _ & _ & _ & _ & BD & BC).
  pose proof (List.filter_length_le isStoreQuery
                (events (daysSinceRain db loc (civilDay loc now)))) as FD.
  pose proof (List.filter_length_le isStoreQuery
                (events (consecutiveRainDays db loc (civilDay loc now)))) as FC.
  destruct (cycle_cases env db loc config testMode loopMode now)
    as [(s & err & _ & E) | [(sY & s & err & _ & _ & E)
        | [(sY & sV & _ & _ & _ & E)
        | (statsY & statsV & d & c & _ & _ & _ & _ & _ & E)]]];
    rewrite E; cbn [value events fst snd];
    rewrite ?List.filter_app, ?length_app, ?publish_no_store_query;
    cbn [List.filter isStoreQuery length]; split; try lia.
  intros Hnot. exfalso. eapply Hnot. reflexivity.
Qed.

(** ** The emoji prefix, counted *)

(** A value below zero is not at or above a positive number. *)
Lemma below_zero_not_above x c m e :
  Prim2SF c = S754_finite false m e ->
  lt x 0 = true -> ge x c = false.
Proof.
  unfold lt, ge. rewrite ltb_spec, leb_spec.
  change (Prim2SF 0) with (S754_zero false). intros ->.
  unfold SFltb, SFleb, SFcompare.
  destruct (Prim2SF x) as [s | s | | s m' e']; try discriminate;
    destruct s; try discriminate; reflexivity.
Qed.

(** X15.  No title carries more than three emojis: the freeze emoji
    (tMax < 0) never comes with an emoji of the heat tier, and the frost
    emoji (tMin < 0) never with the warm-night emoji. *)
Theorem at_most_three_emojis (statsY : dayStats) :
  (length (emojis statsY) <= 3)%nat
  /\ (In "🧊 " (emojis statsY) ->
      ~ In "🏜️ " (emojis statsY) /\ ~ In "🌡️ " (emojis statsY)
      /\ ~ In "☀️ " (emojis statsY))
  /\ (In "❄️ " (emojis statsY) -> ~ In "🌙 " (emojis statsY)).
Proof.
  assert (H35 : lt (tMax statsY) 0 = true -> ge (tMax statsY) 35 = false)
    by (eapply below_zero_not_above; vm_compute; reflexivity).
  assert (H30 : lt (tMax statsY) 0 = true -> ge (tMax statsY) 30 = false)
    by (eapply below_zero_not_above; vm_compute; reflexivity).
  assert (H25 : lt (tMax statsY) 0 = true -> ge (tMax statsY) 25 = false)
    by (eapply below_zero_not_above; vm_compute; reflexivity).
  assert (H20 : lt (tMin statsY) 0 = true -> ge (tMin statsY) 20 = false)
    by (eapply below_zero_not_above; vm_compute; reflexivity).
  unfold emojis, append.
  destruct (gt (rainSum statsY) 0), (lt (tMax statsY) 0);
    [specialize (H35 eq_refl); specialize (H30 eq_refl);
     specialize (H25 eq_refl); rewrite H35, H30, H25 | clear H35 H30 H25
    | specialize (H35 eq_refl); specialize (H30 eq_refl);
      specialize (H25 eq_refl); rewrite H35, H30, H25 | clear H35 H30 H25];
    (destruct (lt (tMin statsY) 0);
     [specialize (H20 eq_refl); rewrite H20 | clear H20]);
    try destruct (ge (tMax statsY) 35); try destruct (ge (tMax statsY) 30);
    try destruct (ge (tMax statsY) 25); try destruct (ge (tMin statsY) 20);
    cbn; (split; [lia |]); split; intuition discriminate.
Qed.

(** ** lemmyPostWithRetry *)

Lemma countEv_app f l1 l2 : countEv f (l1 ++ l2) = countEv f l1 + countEv f l2.
Proof. unfold countEv. rewrite List.filter_app, length_app. lia. Qed.

Lemma countEv_nonneg f l : 0 <= countEv f l.
Proof. unfold countEv. lia. Qed.

Section Retry.
Variables (config : Config) (title weatherText : string).

#[local] Abbreviation retry fuel net loopMode rc :=
  (lemmyPostWithRetryFrom fuel net config title weatherText loopMode rc).

(** What one pass contributes to the counts. *)
Lemma passEvents_counts a :
  countEv isTrying (passEvents config title weatherText a) = 1
  /\ countEv isSleep (passEvents config title weatherText a) = 0
  /\ countEv isGiveUp (passEvents config title weatherText a) = 0
  /\ countEv isPosted (passEvents config title weatherText a)
     = (if failing a then 0 else 1).
Proof. destruct a; repeat split. Qed.

(** The run after a failed pass. *)
Lemma run_failed fuel net loopMode rc :
  failing (net O) = true ->
  retry (S fuel) net loopMode rc
  = match snd (afterFailure loopMode rc) with
    | None =>
        ((passEvents config title weatherText (net O)
          ++ fst (afterFailure loopMode rc))%list, true)
    | Some rc' =>
        ((passEvents config title weatherText (net O)
          ++ fst (afterFailure loopMode rc)
          ++ fst (retry fuel (fun n => net (S n)) loopMode rc'))%list,
         snd (retry fuel (fun n => net (S n)) loopMode rc'))
    end.
Proof.
  intros Hf. cbn [lemmyPostWithRetryFrom].
  destruct (afterFailure loopMode rc) as [evs [rc' |]]; cbn [fst snd].
  - destruct (lemmyPostWithRetryFrom fuel _ config title weatherText loopMode rc')
      as [later returned].
    destruct (net O); try discriminate; reflexivity.
  - destruct (net O); try discriminate; reflexivity.
Qed.

Lemma run_succeeded fuel net loopMode rc :
  net O = AllSucceed ->
  retry (S fuel) net loopMode rc
  = (passEvents config title weatherText AllSucceed, true).
Proof. intros H. cbn [lemmyPostWithRetryFrom]. rewrite H. reflexivity. Qed.

(** In loop mode: counts of a run entered with [rc] retries used. *)
Lemma loop_mode_counts fuel : forall net rc,
  0 <= rc < maxRetries ->
  maxRetries - rc <= Z.of_nat fuel ->
  snd (retry fuel net true rc) = true
  /\ 1 <= countEv isTrying (fst (retry fuel net true rc)) <= maxRetries - rc
  /\ countEv isSleep (fst (retry fuel net true rc))
     = countEv isTrying (fst (retry fuel net true rc)) - 1
  /\ countEv isPosted (fst (retry fuel net true rc))
     + countEv isGiveUp (fst (retry fuel net true rc)) = 1.
Proof.
  unfold maxRetries.
  induction fuel as [| fuel IH]; intros net rc Hrc Hfuel; [lia |].
  destruct (passEvents_counts (net O)) as (CT & CS & CG & CP).
  destruct (failing (net O)) eqn:Hf.
  - rewrite (run_failed fuel net true rc Hf). unfold afterFailure, maxRetries.
    destruct (48 <=? rc + 1) eqn:Hlast; cbn [fst snd].
    + apply Z.leb_le in Hlast. rewrite !countEv_app, CT, CS, CG, CP.
      change (countEv isTrying [RLog LogMaxRetries]) with 0.
      change (countEv isSleep [RLog LogMaxRetries]) with 0.
      change (countEv isPosted [RLog LogMaxRetries]) with 0.
      change (countEv isGiveUp [RLog LogMaxRetries]) with 1.
      repeat split; lia.
    + apply Z.leb_gt in Hlast.
      destruct (IH (fun n => net (S n)) (rc + 1)) as (Hr & Ht & Hs & Hp);
        [lia | lia |].
      rewrite !countEv_app, CT, CS, CG, CP.
      change (countEv isTrying [RLog (LogRetryCounted (rc + 1)); RSleep]) with 0.
      change (countEv isSleep [RLog (LogRetryCounted (rc + 1)); RSleep]) with 1.
      change (countEv isPosted [RLog (LogRetryCounted (rc + 1)); RSleep]) with 0.
      change (countEv isGiveUp [RLog (LogRetryCounted (rc + 1)); RSleep]) with 0.
      repeat split; try assumption; lia.
  - assert (Hs : net O = AllSucceed) by (destruct (net O); try discriminate; reflexivity).
    rewrite (run_succeeded fuel net true rc Hs). rewrite Hs in CT, CS, CG, CP.
    cbn [fst snd]. rewrite CT, CS, CG, CP. cbn [failing]. repeat split; lia.
Qed.

(** A run that returned returns the same with more fuel. *)
Lemma run_fuel_mono fuel : forall net loopMode rc extra,
  snd (retry fuel net loopMode rc) = true ->
  retry (fuel + extra) net loopMode rc = retry fuel net loopMode rc.
Proof.
  induction fuel as [| fuel IH]; intros net loopMode rc extra Hret;
    [discriminate |].
  change (S fuel + extra)%nat with (S (fuel + extra)).
  destruct (failing (net O)) eqn:Hf.
  - rewrite (run_failed (fuel + extra) net loopMode rc Hf).
    rewrite (run_failed fuel net loopMode rc Hf) in Hret |- *.
    destruct (snd (afterFailure loopMode rc)) as [rc' |]; [| reflexivity].
    cbn [snd] in Hret. rewrite (IH _ _ _ extra Hret). reflexivity.
  - assert (Hs : net O = AllSucceed) by (destruct (net O); try discriminate; reflexivity).
    rewrite !run_succeeded by exact Hs. reflexivity.
Qed.
End Retry.

(** X16.  In loop mode [lemmyPostWithRetry] returns after at most 48
    passes, whatever the network does: 48 passes of fuel are enough and more
    change nothing; it has slept one time less than it tried, so at most 47
    times; and it ends either on the success line or on the give-up line,
    never both. *)
Theorem loop_mode_returns_within_48_passes net config title weatherText extra :
  lemmyPostWithRetry (48 + extra) net config title weatherText true
  = lemmyPostWithRetry 48 net config title weatherText true
  /\ snd (lemmyPostWithRetry 48 net config title weatherText true) = true
  /\ 1 <= countEv isTrying
            (fst (lemmyPostWithRetry 48 net config title weatherText true))
       <= 48
  /\ countEv isSleep
       (fst (lemmyPostWithRetry 48 net config title weatherText true))
     = countEv isTrying
         (fst (lemmyPostWithRetry 48 net config title weatherText true)) - 1
  /\ countEv isPosted
       (fst (lemmyPostWithRetry 48 net config title weatherText true))
     + countEv isGiveUp
         (fst (lemmyPostWithRetry 48 net config title weatherText true)) = 1.
Proof.
  unfold lemmyPostWithRetry.
  destruct (loop_mode_counts config title weatherText 48 net 0)
    as (Hr & Ht & Hs & Hp); [unfold maxRetries; lia | unfold maxRetries; lia |].
  unfold maxRetries in Ht.
  split; [| repeat split; try assumption; lia].
  apply run_fuel_mono. exact Hr.
Qed.

Section RetryRuns.
Variables (config : Config) (title weatherText : string).

#[local] Abbreviation retry fuel net loopMode rc :=
  (lemmyPostWithRetryFrom fuel net config title weatherText loopMode rc).

Lemma loop_mode_all_fail fuel : forall net rc,
  0 <= rc < maxRetries ->
  maxRetries - rc <= Z.of_nat fuel ->
  (forall n, Z.of_nat n < maxRetries - rc -> failing (net n) = true) ->
  snd (retry fuel net true rc) = true
  /\ countEv isTrying (fst (retry fuel net true rc)) = maxRetries - rc
  /\ countEv isSleep (fst (retry fuel net true rc)) = maxRetries - rc - 1
  /\ countEv isPosted (fst (retry fuel net true rc)) = 0
  /\ countEv isGiveUp (fst (retry fuel net true rc)) = 1.
Proof.
  unfold maxRetries.
  induction fuel as [| fuel IH]; intros net rc Hrc Hfuel Hfail; [lia |].
  destruct (passEvents_counts config title weatherText (net O))
    as (CT & CS & CG & CP).
  assert (Hf : failing (net O) = true) by (apply Hfail; lia).
  rewrite Hf in CP.
  rewrite (run_failed config title weatherText fuel net true rc Hf).
  unfold afterFailure, maxRetries.
  destruct (48 <=? rc + 1) eqn:Hlast; cbn [fst snd].
  - apply Z.leb_le in Hlast. rewrite !countEv_app, CT, CS, CG, CP.
    change (countEv isTrying [RLog LogMaxRetries]) with 0.
    change (countEv isSleep [RLog LogMaxRetries]) with 0.
    change (countEv isPosted [RLog LogMaxRetries]) with 0.
    change (countEv isGiveUp [RLog LogMaxRetries]) with 1.
    repeat split; lia.
  - apply Z.leb_gt in Hlast.
    destruct (IH (fun n => net (S n)) (rc + 1)) as (Hr & Ht & Hs & Hp & Hg);
      [lia | lia | intros n Hn; apply Hfail; lia |].
    rewrite !countEv_app, CT, CS, CG, CP, Ht, Hs, Hp, Hg.
    change (countEv isTrying [RLog (LogRetryCounted (rc + 1)); RSleep]) with 0.
    change (countEv isSleep [RLog (LogRetryCounted (rc + 1)); RSleep]) with 1.
    change (countEv isPosted [RLog (LogRetryCounted (rc + 1)); RSleep]) with 0.
    change (countEv isGiveUp [RLog (LogRetryCounted (rc + 1)); RSleep]) with 0.
    repeat split; try assumption; lia.
Qed.

Lemma single_shot_all_fail fuel : forall net rc,
  (forall n, (n < fuel)%nat -> failing (net n) = true) ->
  snd (retry fuel net false rc) = false
  /\ countEv isTrying (fst (retry fuel net false rc)) = Z.of_nat fuel
  /\ countEv isSleep (fst (retry fuel net false rc)) = Z.of_nat fuel
  /\ countEv isPosted (fst (retry fuel net false rc)) = 0
  /\ countEv isGiveUp (fst (retry fuel net false rc)) = 0.
Proof.
  induction fuel as [| fuel IH]; intros net rc Hfail; [repeat split |].
  destruct (passEvents_counts config title weatherText (net O))
    as (CT & CS & CG & CP).
  assert (Hf : failing (net O) = true) by (apply Hfail; lia).
  rewrite Hf in CP.
  rewrite (run_failed config title weatherText fuel net false rc Hf).
  unfold afterFailure. cbn [fst snd].
  destruct (IH (fun n => net (S n)) rc) as (Hr & Ht & Hs & Hp & Hg);
    [intros n Hn; apply Hfail; lia |].
  rewrite !countEv_app, CT, CS, CG, CP, Ht, Hs, Hp, Hg.
  change (countEv isTrying [RLog LogRetry; RSleep]) with 0.
  change (countEv isSleep [RLog LogRetry; RSleep]) with 1.
  change (countEv isPosted [RLog LogRetry; RSleep]) with 0.
  change (countEv isGiveUp [RLog LogRetry; RSleep]) with 0.
  repeat split; try assumption; lia.
Qed.

Lemma first_success k : forall net loopMode rc fuel,
  net k = AllSucceed ->
  (forall n, (n < k)%nat -> failing (net n) = true) ->
  0 <= rc ->
  (loopMode = true -> rc + Z.of_nat k < maxRetries) ->
  (k < fuel)%nat ->
  snd (retry fuel net loopMode rc) = true
  /\ countEv isTrying (fst (retry fuel net loopMode rc)) = Z.of_nat k + 1
  /\ countEv isSleep (fst (retry fuel net loopMode rc)) = Z.of_nat k
  /\ countEv isPosted (fst (retry fuel net loopMode rc)) = 1
  /\ countEv isGiveUp (fst (retry fuel net loopMode rc)) = 0.
Proof.
  unfold maxRetries.
  induction k as [| k IH]; intros net loopMode rc fuel Hk Hfail Hrc Hcap Hfuel;
    (destruct fuel as [| fuel]; [lia |]).
  - rewrite (run_succeeded config title weatherText fuel net loopMode rc Hk).
    repeat split.
  - destruct (passEvents_counts config title weatherText (net O))
      as (CT & CS & CG & CP).
    assert (Hf : failing (net O) = true) by (apply Hfail; lia).
    rewrite Hf in CP.
    rewrite (run_failed config title weatherText fuel net loopMode rc Hf).
    assert (Hnext : afterFailure loopMode rc
              = ([RLog (if loopMode then LogRetryCounted (rc + 1) else LogRetry);
                  RSleep],
                 Some (if loopMode then rc + 1 else rc))).
    { unfold afterFailure, maxRetries. destruct loopMode; [| reflexivity].
      specialize (Hcap eq_refl).
      replace (48 <=? rc + 1) with false by (symmetry; apply Z.leb_gt; lia).
      reflexivity. }
    rewrite Hnext. cbn [fst snd].
    destruct (IH (fun n => net (S n)) loopMode
                (if loopMode then rc + 1 else rc) fuel)
      as (Hr & Ht & Hs & Hp & Hg);
      [exact Hk | intros n Hn; apply Hfail; lia | destruct loopMode; lia
      | intros ->; specialize (Hcap eq_refl); lia | lia |].
    rewrite !countEv_app, CT, CS, CG, CP, Ht, Hs, Hp, Hg.
    replace (countEv isTrying
               [RLog (if loopMode then LogRetryCounted (rc + 1) else LogRetry);
                RSleep]) with 0 by (destruct loopMode; reflexivity).
    replace (countEv isSleep
               [RLog (if loopMode then LogRetryCounted (rc + 1) else LogRetry);
                RSleep]) with 1 by (destruct loopMode; reflexivity).
    replace (countEv isPosted
               [RLog (if loopMode then LogRetryCounted (rc + 1) else LogRetry);
                RSleep]) with 0 by (destruct loopMode; reflexivity).
    replace (countEv isGiveUp
               [RLog (if loopMode then LogRetryCounted (rc + 1) else LogRetry);
                RSleep]) with 0 by (destruct loopMode; reflexivity).
    repeat split; try assumption; lia.
Qed.
End RetryRuns.

(** X17.  In loop mode, when the first 48 passes all fail,
    [lemmyPostWithRetry] gives up: it returns after exactly 48 tries and 47
    sleeps of 30 minutes, logs the give-up line once and never the success
    line.  (The failures may be of any of the three kinds, mixed: they share
    one counter.) *)
Theorem loop_mode_gives_up_after_48_failures net config title weatherText :
  (forall n, (n < 48)%nat -> failing (net n) = true) ->
  snd (lemmyPostWithRetry 48 net config title weatherText true) = true
  /\ countEv isTrying
       (fst (lemmyPostWithRetry 48 net config title weatherText true)) = 48
  /\ countEv isSleep
       (fst (lemmyPostWithRetry 48 net config title weatherText true)) = 47
  /\ countEv isPosted
       (fst (lemmyPostWithRetry 48 net config title weatherText true)) = 0
  /\ countEv isGiveUp
       (fst (lemmyPostWithRetry 48 net config title weatherText true)) = 1.
Proof.
  intros Hfail. unfold lemmyPostWithRetry.
  destruct (loop_mode_all_fail config title weatherText 48 net 0)
    as (Hr & Ht & Hs & Hp & Hg); unfold maxRetries in *; try lia.
  - intros n Hn. apply Hfail. lia.
  - repeat split; try assumption; lia.
Qed.

(** X18.  Outside loop mode [lemmyPostWithRetry] never gives up: as long
    as the passes fail it has not returned, after [n] failed passes it has
    tried [n] times and slept [n] times, and the give-up line is never
    logged. *)
Theorem single_shot_mode_never_gives_up net config title weatherText fuel :
  (forall n, (n < fuel)%nat -> failing (net n) = true) ->
  snd (lemmyPostWithRetry fuel net config title weatherText false) = false
  /\ countEv isTrying
       (fst (lemmyPostWithRetry fuel net config title weatherText false))
     = Z.of_nat fuel
  /\ countEv isSleep
       (fst (lemmyPostWithRetry fuel net config title weatherText false))
     = Z.of_nat fuel
  /\ countEv isGiveUp
       (fst (lemmyPostWithRetry fuel net config title weatherText false)) = 0.
Proof.
  intros Hfail. unfold lemmyPostWithRetry.
  destruct (single_shot_all_fail config title weatherText fuel net 0 Hfail)
    as (Hr & Ht & Hs & Hp & Hg).
  repeat split; assumption.
Qed.

(** X19.  When pass [k] is the first on which login, community lookup and
    post creation all succeed (in loop mode: [k] below 48),
    [lemmyPostWithRetry] returns on that pass: [k + 1] tries, [k] sleeps, the
    success line once, no give-up line - in either mode, and with any fuel
    above [k]. *)
Theorem returns_on_first_success net config title weatherText loopMode k fuel :
  net k = AllSucceed ->
  (forall n, (n < k)%nat -> failing (net n) = true) ->
  (loopMode = true -> Z.of_nat k < maxRetries) ->
  (k < fuel)%nat ->
  snd (lemmyPostWithRetry fuel net config title weatherText loopMode) = true
  /\ countEv isTrying
       (fst (lemmyPostWithRetry fuel net config title weatherText loopMode))
     = Z.of_nat k + 1
  /\ countEv isSleep
       (fst (lemmyPostWithRetry fuel net config title weatherText loopMode))
     = Z.of_nat k
  /\ countEv isPosted
       (fst (lemmyPostWithRetry fuel net config title weatherText loopMode)) = 1
  /\ countEv isGiveUp
       (fst (lemmyPostWithRetry fuel net config title weatherText loopMode)) = 0.
Proof.
  intros Hk Hfail Hcap Hfuel. unfold lemmyPostWithRetry.
  apply first_success; try assumption; lia.
Qed.

(** ** parseNoaaRain *)

(** [splitLines] undoes the joining of lines with newlines. *)
Lemma splitLines_join content :
  String.concat (String (Ascii.ascii_of_nat 10) EmptyString)
    (splitLines content) = content.
Proof.
  induction content as [| c rest IH]; [reflexivity |].
  cbn [splitLines].
  destruct (Ascii.eqb c (Ascii.ascii_of_nat 10)) eqn:Hc.
  - apply Ascii.eqb_eq in Hc. subst c.
    destruct (splitLines rest) as [| l ls] eqn:Hs.
    + cbn in IH. subst rest. discriminate.
    + cbn [String.concat]. rewrite <- IH. reflexivity.
  - destruct (splitLines rest) as [| l ls] eqn:Hs.
    + cbn in IH. subst rest. discriminate.
    + rewrite <- IH. destruct ls; reflexivity.
Qed.

Section Noaa.
Variables (sc : Scanner) (dateStr : string).

Lemma noaaScanLines_step line rest :
  noaaScanLines sc dateStr (line :: rest)
  = if noaaLineMatches sc dateStr line then Some (noaaValue sc line)
    else noaaScanLines sc dateStr rest.
Proof.
  cbn [noaaScanLines]. unfold noaaLineMatches, noaaValue.
  destruct (String.prefix (dateStr ++ " ") line); [| reflexivity].
  cbn [andb].
  destruct (4 <=? Z.of_nat (length (Fields sc line))); [| reflexivity].
  destruct (sscanfFloat sc _); reflexivity.
Qed.

Lemma noaaScanLines_first pre line post :
  (forall l, In l pre -> noaaLineMatches sc dateStr l = false) ->
  noaaLineMatches sc dateStr line = true ->
  noaaScanLines sc dateStr (pre ++ line :: post) = Some (noaaValue sc line).
Proof.
  intros Hpre Hline. induction pre as [| p pre IH]; cbn [app].
  - rewrite noaaScanLines_step, Hline. reflexivity.
  - rewrite noaaScanLines_step, (Hpre p) by (left; reflexivity).
    apply IH. intros l Hl. apply Hpre. right. exact Hl.
Qed.

Lemma noaaScanLines_found lines v :
  noaaScanLines sc dateStr lines = Some v ->
  exists pre line post,
    lines = (pre ++ line :: post)%list
    /\ (forall l, In l pre -> noaaLineMatches sc dateStr l = false)
    /\ noaaLineMatches sc dateStr line = true
    /\ v = noaaValue sc line.
Proof.
  induction lines as [| l lines IH]; [discriminate |].
  rewrite noaaScanLines_step.
  destruct (noaaLineMatches sc dateStr l) eqn:Hl.
  - intros [= <-]. exists [], l, lines. repeat split; auto.
    intros ? [].
  - intros H. destruct (IH H) as (pre & line & post & -> & Hpre & Hline & Hv).
    exists (l :: pre), line, post. repeat split; auto.
    intros l' [<- | Hin]; auto.
Qed.

Lemma noaaScanLines_none lines :
  noaaScanLines sc dateStr lines = None
  <-> forall l, In l lines -> noaaLineMatches sc dateStr l = false.
Proof.
  induction lines as [| l lines IH].
  - split; [intros _ ? [] | reflexivity].
  - rewrite noaaScanLines_step.
    destruct (noaaLineMatches sc dateStr l) eqn:Hl.
    + split; [discriminate |]. intros H.
      rewrite (H l) in Hl by (left; reflexivity). discriminate.
    + rewrite IH. split.
      * intros H l' [<- | Hin]; auto.
      * intros H l' Hin. apply H. right. exact Hin.
Qed.
End Noaa.

(** X20.  [parseNoaaRain] succeeds exactly when some line of the report
    starts with the date and a space and has four fields or more; the value
    is taken from the fourth field of the first such line (lines with the
    prefix but fewer fields are passed over), and it is 0 - with no error -
    when that field does not scan as a number. *)
Theorem parseNoaaRain_reads_first_matching_line sc content dateStr v :
  parseNoaaRain sc (Content content) dateStr = (v, None)
  <-> exists pre line post,
        splitLines content = (pre ++ line :: post)%list
        /\ (forall l, In l pre -> noaaLineMatches sc dateStr l = false)
        /\ noaaLineMatches sc dateStr line = true
        /\ v = match sscanfFloat sc (nth 3 (Fields sc line) EmptyString) with
               | Some rainVal => rainVal
               | None => 0%float
               end.
Proof.
  unfold parseNoaaRain. split.
  - destruct (noaaScanLines sc dateStr (splitLines content)) as [x |] eqn:Hs;
      [| discriminate].
    intros [= <-]. exact (noaaScanLines_found sc dateStr _ _ Hs).
  - intros (pre & line & post & -> & Hpre & Hline & ->).
    rewrite (noaaScanLines_first sc dateStr pre line post Hpre Hline).
    reflexivity.
Qed.

(** X21.  [parseNoaaRain] returns the "no entry" error, with the value 0,
    exactly when no line of the report starts with the date and a space and
    has four fields or more - an empty report included; a report that
    cannot be opened or read gives the error of the open or the read. *)
Theorem parseNoaaRain_no_entry sc file dateStr :
  match file with
  | OpenFails code =>
      parseNoaaRain sc file dateStr = (0%float, Some (NoaaOpen code))
  | ReadFails code =>
      parseNoaaRain sc file dateStr = (0%float, Some (NoaaRead code))
  | Content content =>
      (parseNoaaRain sc file dateStr = (0%float, Some (NoaaNoEntry dateStr))
       <-> forall l, In l (splitLines content) ->
             noaaLineMatches sc dateStr l = false)
      /\ (snd (parseNoaaRain sc file dateStr) <> None ->
          parseNoaaRain sc file dateStr
          = (0%float, Some (NoaaNoEntry dateStr)))
  end.
Proof.
  destruct file as [code | code | content]; try reflexivity.
  unfold parseNoaaRain. rewrite <- (noaaScanLines_none sc dateStr).
  destruct (noaaScanLines sc dateStr (splitLines content)) as [x |] eqn:Hs.
  - split; [split; discriminate |]. cbn. congruence.
  - split; [split; reflexivity | reflexivity].
Qed.

(** ** The further properties at sample stores *)

Lemma scan_error_discards_sun_hours_witness :
  snd (value (getStats scanErrorDB UTC yStart yEnd)) = Some (ErrDriver 1)
  /\ sunHours (fst (value (getStats scanErrorDB UTC yStart yEnd))) = 0.
Proof.
  destruct (scan_error_discards_sun_hours scanErrorDB UTC yStart yEnd
              (sqlReal 21.5) (sqlReal 21.5)
              (mkRows (map inr (firstn 2 sunnyRows)
                       ++ inl (ErrDriver 1) :: map inr (skipn 3 sunnyRows))
                      None)
              (firstn 2 sunnyRows) (ErrDriver 1) (map inr (skipn 3 sunnyRows)))
    as (H1 & H2 & _).
  - vm_compute. reflexivity.
  - reflexivity.
  - reflexivity.
  - split; [exact H1 | exact H2].
Defined.

Lemma sun_hours_monotone_and_order_free_witness :
  sunHours (fst (value (getStats (tableDB sunnyDay) UTC yStart yEnd)))
  = sunHours (fst (value (getStats (tableDB sunnyDayReversed) UTC yStart yEnd))).
Proof.
  refine (proj2
    (sun_hours_monotone_and_order_free (tableDB sunnyDay)
       (tableDB sunnyDayReversed) UTC yStart yEnd
       (fst (value (getStats (tableDB sunnyDay) UTC yStart yEnd)))
       (fst (value (getStats (tableDB sunnyDayReversed) UTC yStart yEnd)))
       (mkRows (map inr sunnyRows) None) (mkRows (map inr (rev sunnyRows)) None)
       sunnyRows (rev sunnyRows) _ _ _ _ _ _) _).
  - vm_compute. reflexivity.
  - vm_compute. reflexivity.
  - reflexivity.
  - vm_compute. reflexivity.
  - vm_compute. reflexivity.
  - reflexivity.
  - intros r. apply in_rev.
Defined.

Lemma scans_depend_on_29_days_only_witness :
  daysSinceRain (tableDB drought40) UTC refDay
  = daysSinceRain (tableDB drought29ThenRain) UTC refDay
  /\ consecutiveRainDays (tableDB drought40) UTC refDay
     = consecutiveRainDays (tableDB drought29ThenRain) UTC refDay.
Proof.
  apply (scans_depend_on_29_days_only (tableDB drought40)
           (tableDB drought29ThenRain) UTC refDay).
  intros j Hj.
  assert (Hin : In j (seqZ 1 29))
    by (apply list_elem_of_In, elem_of_seqZ; lia).
  vm_compute in Hin.
  repeat (destruct Hin as [<- | Hin]; [vm_compute; reflexivity |]).
  destruct Hin.
Defined.

Lemma streaks_agree_with_yesterdays_rain_witness :
  (1 <= 2 ->
   gt (rainSum (fst (value (getStats (tableDB dryDryWetWet) UTC
                              (midnight UTC (refDay - 1))
                              (midnight UTC (refDay - 1 + 1)))))) 0 = false)
  /\ (1 <= 0 ->
      gt (rainSum (fst (value (getStats (tableDB dryDryWetWet) UTC
                                 (midnight UTC (refDay - 1))
                                 (midnight UTC (refDay - 1 + 1)))))) 0 = true)
  /\ (drySpellThreshold <=? 2)
     && gt (rainSum (fst (value (getStats (tableDB dryDryWetWet) UTC
                                   (midnight UTC (refDay - 1))
                                   (midnight UTC (refDay - 1 + 1)))))) 0
     = false.
Proof.
  apply (streaks_agree_with_yesterdays_rain (tableDB dryDryWetWet) UTC refDay
           _ 2 0).
  - vm_compute. reflexivity.
  - vm_compute. reflexivity.
  - vm_compute. reflexivity.
  - vm_compute. reflexivity.
Defined.

Lemma body_has_at_most_one_note_witness :
  exists statsY statsV d c,
    value (daysSinceRain (tableDB drought40) UTC (civilDay UTC refNow)) = Some d
    /\ value (consecutiveRainDays (tableDB drought40) UTC (civilDay UTC refNow))
       = Some c
    /\ reportedTitle
         (value (runWeatherPosting sampleEnv (tableDB drought40) UTC
                   sampleConfig true false refNow))
       = title sampleEnv (civilDay UTC refNow - 1) statsY statsV
    /\ ((reportedBody
           (value (runWeatherPosting sampleEnv (tableDB drought40) UTC
                     sampleConfig true false refNow))
         = baseText sampleEnv statsY statsV /\ d < 3 /\ c < 3)
        \/ (reportedBody
              (value (runWeatherPosting sampleEnv (tableDB drought40) UTC
                        sampleConfig true false refNow))
            = noteStillDry sampleEnv (baseText sampleEnv statsY statsV) d
            /\ 3 <= d /\ c = 0)
        \/ (reportedBody
              (value (runWeatherPosting sampleEnv (tableDB drought40) UTC
                        sampleConfig true false refNow))
            = noteRainSeries sampleEnv (baseText sampleEnv statsY statsV) c
            /\ 3 <= c /\ d = 0)).
Proof.
  apply (body_has_at_most_one_note sampleEnv (tableDB drought40) UTC
           sampleConfig true false refNow).
  - vm_compute. reflexivity.
  - vm_compute. reflexivity.
Defined.

Lemma loop_mode_gives_up_after_48_failures_witness :
  snd (lemmyPostWithRetry 48 netDown sampleConfig "t" "b" true) = true
  /\ countEv isTrying
       (fst (lemmyPostWithRetry 48 netDown sampleConfig "t" "b" true)) = 48
  /\ countEv isSleep
       (fst (lemmyPostWithRetry 48 netDown sampleConfig "t" "b" true)) = 47
  /\ countEv isPosted
       (fst (lemmyPostWithRetry 48 netDown sampleConfig "t" "b" true)) = 0
  /\ countEv isGiveUp
       (fst (lemmyPostWithRetry 48 netDown sampleConfig "t" "b" true)) = 1.
Proof.
  apply (loop_mode_gives_up_after_48_failures netDown sampleConfig "t" "b").
  intros n _. reflexivity.
Defined.

Lemma single_shot_mode_never_gives_up_witness :
  snd (lemmyPostWithRetry 100 netDown sampleConfig "t" "b" false) = false
  /\ countEv isTrying
       (fst (lemmyPostWithRetry 100 netDown sampleConfig "t" "b" false))
     = Z.of_nat 100
  /\ countEv isSleep
       (fst (lemmyPostWithRetry 100 netDown sampleConfig "t" "b" false))
     = Z.of_nat 100
  /\ countEv isGiveUp
       (fst (lemmyPostWithRetry 100 netDown sampleConfig "t" "b" false)) = 0.
Proof.
  apply (single_shot_mode_never_gives_up netDown sampleConfig "t" "b" 100).
  intros n _. reflexivity.
Defined.

Lemma returns_on_first_success_witness :
  snd (lemmyPostWithRetry 5 netThird sampleConfig "t" "b" true) = true
  /\ countEv isTrying
       (fst (lemmyPostWithRetry 5 netThird sampleConfig "t" "b" true))
     = Z.of_nat 2 + 1
  /\ countEv isSleep
       (fst (lemmyPostWithRetry 5 netThird sampleConfig "t" "b" true))
     = Z.of_nat 2
  /\ countEv isPosted
       (fst (lemmyPostWithRetry 5 netThird sampleConfig "t" "b" true)) = 1
  /\ countEv isGiveUp
       (fst (lemmyPostWithRetry 5 netThird sampleConfig "t" "b" true)) = 0.
Proof.
  apply (returns_on_first_success netThird sampleConfig "t" "b" true 2 5).
  - reflexivity.
  - intros n Hn. destruct n as [| [| n]]; [reflexivity | reflexivity | lia].
  - intros _. unfold maxRetries. lia.
  - lia.
Defined.

(** A report in the layout [parseNoaaRain] expects. *)
Example parseNoaaRain_sample :
  parseNoaaRain sampleScanner
    (Content (String.concat nl
       ["24.06 18.1 12:00 0.0"; "25.06 x"; "25.06 21.3 14:10 1.2 0";
        "25.06 20.0 10:00 9.9"])) "25.06" = (1.2%float, None)
  /\ parseNoaaRain sampleScanner (Content "") "25.06"
     = (0%float, Some (NoaaNoEntry "25.06"))
  /\ parseNoaaRain sampleScanner (Content "25.06 21.3 14:10 n/a") "25.06"
     = (0%float, None).
Proof. vm_compute. repeat split; reflexivity. Qed.

(** With Lemmy down, a cycle outside loop mode stays in the Lemmy call and
    never reaches Mastodon; in loop mode the Lemmy call returns and the
    Mastodon call follows. *)
Example lemmy_down_blocks_mastodon :
  map isPublish
    (List.filter isPublish
       (events (runWeatherPosting lemmyDownEnv (tableDB drought40) UTC
                  bothConfig false false refNow))) = [true]
  /\ map isPublish
       (List.filter isPublish
          (events (runWeatherPosting lemmyDownEnv (tableDB drought40) UTC
                     bothConfig false true refNow))) = [true; true]
  /\ map isPublish
       (List.filter isPublish
          (events (runWeatherPosting lemmyDownEnv (tableDB drought40) UTC
                     bothConfig true false refNow))) = [true].
Proof. vm_compute. repeat split; reflexivity. Qed.
